(** * Orchestration engine of the research-agent server

    A shallow embedding of the orchestration core of the repository:
    the tracing context ([utils/tracing.ts]), the memory file helpers
    ([orchestrator/memory.ts]), the long-term memory bridge, the sub-agent
    runner ([orchestrator/subAgent.ts]) and the per-agent lifecycle
    ([orchestrator/agent.ts]).

    Asynchronous functions are written in a state-and-exception monad over
    a [World] that holds what the TypeScript code shares through module
    variables and external services: the wall clock, the file system, the
    trace and span tables and the ambient trace context.  The methods of
    an agent are cut at their [await]s: the calls in flight are tasks of
    the agent, and each step runs one of them to its next [await]. *)

From Stdlib Require Import ZArith QArith Lia.
From stdpp Require Import base option list gmap strings pretty.

Local Open Scope string_scope.
Local Open Scope Z_scope.

(** ** JavaScript values *)

(** The line feed used by the template literals of the source. *)
Definition nl : string := String (Ascii.ascii_of_nat 10) EmptyString.

(** The double quote. *)
Definition dq : string := String (Ascii.ascii_of_nat 34) EmptyString.

(** A string is truthy exactly when it is not empty. *)
Definition truthy (s : string) : bool := negb (String.eqb s "").

(** [a || b] on optional strings: the left operand wins when it is a
    non-empty string. *)
Definition js_or (a b : option string) : option string :=
  match a with
  | Some s => if truthy s then Some s else b
  | None => b
  end.

(** Strings are the utf-8 bytes of JavaScript strings.  A lone surrogate
    (U+D800 to U+DFFF, not part of a pair) has no utf-8 form of its own;
    it appears here in the three bytes ED, A0..BF, 80..BF of its
    generalised encoding. *)
Definition lone_surrogate (a b : Ascii.ascii) : bool :=
  (Ascii.nat_of_ascii a =? 237)%nat
  && (160 <=? Ascii.nat_of_ascii b)%nat && (Ascii.nat_of_ascii b <=? 191)%nat.

(** U+FFFD, the replacement character. *)
Definition replacement : string :=
  String (Ascii.ascii_of_nat 239)
    (String (Ascii.ascii_of_nat 191) (String (Ascii.ascii_of_nat 189) EmptyString)).


Fixpoint toWellFormed (s : string) : string :=
  match s with
  | EmptyString => EmptyString
  | String a rest =>
      match rest with
      | String b (String _ rest') =>
          if lone_surrogate a b then replacement +:+ toWellFormed rest'
          else String a (toWellFormed rest)
      | _ => String a (toWellFormed rest)
      end
  end.

(** A [Date]: its epoch time in milliseconds and its ISO-8601 rendering.
    How the runtime derives one from the other is not part of the
    repository, so both are carried. *)
Record Date := { getTime : Z; toISOString : string }.

(** [Record<string, any>]: keys to rendered values. *)
Abbreviation Json := (gmap string string).


(** ** Rows of the trace store (supabase/migrations, utils/database.ts) *)

Inductive RunStatus := st_running | st_completed | st_error.

Inductive SpanType := cycle | llm | tool | sub_agent | custom.

Record TraceRow := {
  trace_id : string;
  trace_agent_id : string;
  trace_name : string;
  trace_status : RunStatus;
  trace_start_time : Date;
  trace_end_time : option Date;
  trace_metadata : Json;
  trace_error : option string;
}.

Record SpanRow := {
  span_id : string;
  span_trace_id : string;
  span_parent_span_id : option string;
  span_name : string;
  span_type : SpanType;
  span_status : RunStatus;
  span_start_time : Date;
  span_end_time : option Date;
  span_duration_ms : option Z;
  span_input : option Json;
  span_output : option Json;
  span_metadata : Json;
  span_error : option string;
}.

(** [TraceContext] of tracing.ts. *)
Module Ambient.

Record TraceContext := {
  traceId : string;
  currentSpanId : option string;
}.

End Ambient.

Abbreviation TraceContext := Ambient.TraceContext.

(** ** The world shared by the asynchronous code *)

Record World := {
  now : Date;                          (* what [new Date()] answers *)
  files : gmap string string;          (* path to utf-8 content *)
  dirs : gset string;                  (* the directories, by normalised path *)
  denied : gmap string string;         (* paths the system refuses to write, with its error *)
  writes : list (string * string);     (* journal of the writes made, newest first *)
  dbFault : bool;                      (* the store answers every request with an error *)
  traces : gmap string TraceRow;
  spans : gmap string SpanRow;
  rowSeq : nat;                        (* supply behind [gen_random_uuid()] *)
  currentContext : option TraceContext;(* [let currentContext] of tracing.ts *)
  interrupts : nat;                    (* [interrupt()] requests received by the query engine *)
}.

Definition set_now (d : Date) (w : World) : World :=
  {| now := d; files := files w; dirs := dirs w; denied := denied w;
     writes := writes w; dbFault := dbFault w;
     traces := traces w; spans := spans w; rowSeq := rowSeq w;
     currentContext := currentContext w; interrupts := interrupts w |}.

Definition set_files (f : gmap string string) (j : list (string * string)) (w : World) : World :=
  {| now := now w; files := f; dirs := dirs w; denied := denied w;
     writes := j; dbFault := dbFault w;
     traces := traces w; spans := spans w; rowSeq := rowSeq w;
     currentContext := currentContext w; interrupts := interrupts w |}.

Definition set_dirs (d : gset string) (w : World) : World :=
  {| now := now w; files := files w; dirs := d; denied := denied w;
     writes := writes w; dbFault := dbFault w;
     traces := traces w; spans := spans w; rowSeq := rowSeq w;
     currentContext := currentContext w; interrupts := interrupts w |}.

Definition set_traces (t : gmap string TraceRow) (n : nat) (w : World) : World :=
  {| now := now w; files := files w; dirs := dirs w; denied := denied w;
     writes := writes w; dbFault := dbFault w;
     traces := t; spans := spans w; rowSeq := n;
     currentContext := currentContext w; interrupts := interrupts w |}.

Definition set_spans (s : gmap string SpanRow) (n : nat) (w : World) : World :=
  {| now := now w; files := files w; dirs := dirs w; denied := denied w;
     writes := writes w; dbFault := dbFault w;
     traces := traces w; spans := s; rowSeq := n;
     currentContext := currentContext w; interrupts := interrupts w |}.

Definition set_context (c : option TraceContext) (w : World) : World :=
  {| now := now w; files := files w; dirs := dirs w; denied := denied w;
     writes := writes w; dbFault := dbFault w;
     traces := traces w; spans := spans w; rowSeq := rowSeq w;
     currentContext := c; interrupts := interrupts w |}.

Definition add_interrupt (w : World) : World :=
  {| now := now w; files := files w; dirs := dirs w; denied := denied w;
     writes := writes w; dbFault := dbFault w;
     traces := traces w; spans := spans w; rowSeq := rowSeq w;
     currentContext := currentContext w; interrupts := S (interrupts w) |}.

(** ** Promises: state and exceptions *)

Inductive outcome (A : Type) : Type :=
  | Returned (a : A)
  | Thrown (message : string).
Arguments Returned {A} a.
Arguments Thrown {A} message.

(** An asynchronous computation over the mutable state [S]: the state it
    leaves behind together with the value returned or the error thrown. *)
Definition Prog (S A : Type) : Type := S -> outcome A * S.

Abbreviation M := (Prog World).

Definition ret {S A} (a : A) : Prog S A := fun s => (Returned a, s).

Definition throw {S A} (message : string) : Prog S A := fun s => (Thrown message, s).

Definition bind {S A B} (m : Prog S A) (k : A -> Prog S B) : Prog S B :=
  fun s =>
    match m s with
    | (Returned a, s') => k a s'
    | (Thrown e, s') => (Thrown e, s')
    end.

(** [try { m } catch (error) { h error }] *)
Definition try_catch {S A} (m : Prog S A) (h : string -> Prog S A) : Prog S A :=
  fun s =>
    match m s with
    | (Returned a, s') => (Returned a, s')
    | (Thrown e, s') => h e s'
    end.

Definition get {S} : Prog S S := fun s => (Returned s, s).

Definition modify {S} (f : S -> S) : Prog S unit := fun s => (Returned tt, f s).

Notation "x <- m ;; k" := (bind m (fun x => k))
  (at level 100, m at next level, right associativity).
Notation "m ;;; k" := (bind m (fun _ => k))
  (at level 100, right associativity).

(** A state that has the world inside it: an object together with the
    world it runs in. *)
Class HasWorld (S : Type) := {
  world_of : S -> World;
  with_world : World -> S -> S;
}.

#[export] Instance world_has_world : HasWorld World :=
  {| world_of := fun w => w; with_world := fun w _ => w |}.

#[export] Instance object_has_world {X} : HasWorld (X * World) :=
  {| world_of := snd; with_world := fun w s => (fst s, w) |}.

(** Run a computation on the world from inside a larger state. *)
Definition in_world {S} `{HasWorld S} {A} (m : M A) : Prog S A :=
  fun s =>
    let '(r, w) := m (world_of s) in (r, with_world w s).

(** ** utils/database.ts: the trace and span tables *)

Module Database.

(** Identifier handed out by the table default [gen_random_uuid()]. *)
Definition uuid (n : nat) : string := "row-" +:+ pretty n.

Record TraceInsert := {
  ti_agent_id : string;
  ti_name : string;
  ti_status : RunStatus;
  ti_metadata : Json;
}.

Record SpanInsert := {
  si_trace_id : string;
  si_parent_span_id : option string;
  si_name : string;
  si_span_type : SpanType;
  si_status : RunStatus;
  si_input : option Json;
  si_metadata : Json;
}.

(** [traceDb.create]: [null] when the request fails. *)
Definition traceDb_create (t : TraceInsert) : M (option TraceRow) :=
  fun w =>
    if dbFault w then (Returned None, w)
    else
      let row := {| trace_id := uuid (rowSeq w);
                    trace_agent_id := ti_agent_id t;
                    trace_name := ti_name t;
                    trace_status := ti_status t;
                    trace_start_time := now w;
                    trace_end_time := None;
                    trace_metadata := ti_metadata t;
                    trace_error := None |} in
      (Returned (Some row),
       set_traces (<[trace_id row := row]> (traces w)) (S (rowSeq w)) w).

(** [traceDb.update]: the patch is applied to the row with that id. *)
Definition traceDb_update (id : string) (patch : TraceRow -> TraceRow)
  : M (option TraceRow) :=
  fun w =>
    if dbFault w then (Returned None, w)
    else match traces w !! id with
         | Some row =>
             (Returned (Some (patch row)),
              set_traces (<[id := patch row]> (traces w)) (rowSeq w) w)
         | None => (Returned None, w)
         end.

(** The foreign keys of table [spans]: the trace must exist, and so must
    the parent span when one is given. *)
Definition span_keys_ok (s : SpanInsert) (w : World) : bool :=
  bool_decide (is_Some (traces w !! si_trace_id s)) &&
  match si_parent_span_id s with
  | Some p => bool_decide (is_Some (spans w !! p))
  | None => true
  end.

(** [spanDb.create] *)
Definition spanDb_create (s : SpanInsert) : M (option SpanRow) :=
  fun w =>
    if dbFault w then (Returned None, w)
    else if negb (span_keys_ok s w) then (Returned None, w)
    else
      let row := {| span_id := uuid (rowSeq w);
                    span_trace_id := si_trace_id s;
                    span_parent_span_id := si_parent_span_id s;
                    span_name := si_name s;
                    span_type := si_span_type s;
                    span_status := si_status s;
                    span_start_time := now w;
                    span_end_time := None;
                    span_duration_ms := None;
                    span_input := si_input s;
                    span_output := None;
                    span_metadata := si_metadata s;
                    span_error := None |} in
      (Returned (Some row),
       set_spans (<[span_id row := row]> (spans w)) (S (rowSeq w)) w).

(** [spanDb.getById]: [.single()] reports an error when no row matches,
    and the helper answers [null] on any error. *)
Definition spanDb_getById (id : string) : M (option SpanRow) :=
  fun w => if dbFault w then (Returned None, w) else (Returned (spans w !! id), w).

(** [spanDb.update] *)
Definition spanDb_update (id : string) (patch : SpanRow -> SpanRow)
  : M (option SpanRow) :=
  fun w =>
    if dbFault w then (Returned None, w)
    else match spans w !! id with
         | Some row =>
             (Returned (Some (patch row)),
              set_spans (<[id := patch row]> (spans w)) (rowSeq w) w)
         | None => (Returned None, w)
         end.

End Database.

(** ** utils/tracing.ts *)

Module Tracing.
Import Database Ambient.

Record SpanOptions := {
  opt_traceId : option string;
  opt_parentSpanId : option string;
  opt_input : option Json;
  opt_metadata : option Json;
}.

(** A call that passes no [options] argument. *)
Definition no_options : SpanOptions :=
  {| opt_traceId := None; opt_parentSpanId := None;
     opt_input := None; opt_metadata := None |}.

Record EndOptions := {
  end_output : option Json;
  end_error : option string;
  end_metadata : option Json;
}.

Definition setTraceContext (context : option TraceContext) : M unit :=
  modify (set_context context).

Definition getTraceContext : M (option TraceContext) :=
  fun w => (Returned (currentContext w), w).

Definition createTrace (agentId name : string) (metadata : option Json) : M string :=
  trace <- traceDb_create {| ti_agent_id := agentId;
                             ti_name := name;
                             ti_status := st_running;
                             ti_metadata := default ∅ metadata |} ;;
  match trace with
  | None => throw "Failed to create trace"
  | Some trace =>
      setTraceContext (Some {| traceId := trace_id trace; currentSpanId := None |}) ;;;
      ret (trace_id trace)
  end.

Definition endTrace (id : string) (status : RunStatus) (error : option string) : M unit :=
  w <- get ;;
  let endTime := now w in
  _ <- traceDb_update id (fun row =>
         {| trace_id := trace_id row;
            trace_agent_id := trace_agent_id row;
            trace_name := trace_name row;
            trace_status := status;
            trace_start_time := trace_start_time row;
            trace_end_time := Some endTime;
            trace_metadata := trace_metadata row;
            trace_error := js_or error None |}) ;;
  context <- getTraceContext ;;
  match context with
  | Some c => if String.eqb (traceId c) id then setTraceContext None else ret tt
  | None => ret tt
  end.

Definition startSpan (name : string) (spanType : SpanType) (options : SpanOptions)
  : M string :=
  context <- getTraceContext ;;
  match js_or (opt_traceId options) (traceId <$> context) with
  | None => ret ""
  | Some t =>
      if negb (truthy t) then ret ""
      else
        let parentSpanId :=
          js_or (opt_parentSpanId options) (context ≫= currentSpanId) in
        span <- spanDb_create {| si_trace_id := t;
                                 si_parent_span_id := js_or parentSpanId None;
                                 si_name := name;
                                 si_span_type := spanType;
                                 si_status := st_running;
                                 si_input := opt_input options;
                                 si_metadata := default ∅ (opt_metadata options) |} ;;
        match span with
        | None => ret ""
        | Some span =>
            match context with
            | Some c =>
                if String.eqb (traceId c) t
                then setTraceContext
                       (Some {| traceId := traceId c;
                                currentSpanId := Some (span_id span) |})
                else ret tt
            | None => ret tt
            end ;;;
            ret (span_id span)
        end
  end.

Definition endSpan (spanId : string) (status : RunStatus) (options : EndOptions)
  : M unit :=
  if negb (truthy spanId) then ret tt
  else
    span <- spanDb_getById spanId ;;
    match span with
    | None => ret tt
    | Some span =>
        w <- get ;;
        let endTime := now w in
        let durationMs := getTime endTime - getTime (span_start_time span) in
        _ <- spanDb_update spanId (fun row =>
               {| span_id := span_id row;
                  span_trace_id := span_trace_id row;
                  span_parent_span_id := span_parent_span_id row;
                  span_name := span_name row;
                  span_type := span_type row;
                  span_status := status;
                  span_start_time := span_start_time row;
                  span_end_time := Some endTime;
                  span_duration_ms := Some durationMs;
                  span_input := span_input row;
                  span_output := end_output options;
                  span_metadata :=
                    match end_metadata options with
                    | Some m => m ∪ span_metadata span
                    | None => span_metadata row
                    end;
                  span_error := js_or (end_error options) None |}) ;;
        context <- getTraceContext ;;
        match context with
        | Some c =>
            if bool_decide (currentSpanId c = Some spanId) then
              match js_or (span_parent_span_id span) None with
              | Some p =>
                  setTraceContext
                    (Some {| traceId := traceId c; currentSpanId := Some p |})
              | None =>
                  setTraceContext
                    (Some {| traceId := traceId c; currentSpanId := None |})
              end
            else ret tt
        | None => ret tt
        end
    end.

(** What [withSpan] stores as the output of a call that returned:
    [{ result }] for an object, [{ value: result }] otherwise.  Of a call
    that threw it stores the message; the stack text is not kept. *)
Class Captured (T : Type) := capture : T -> Json.

#[export] Instance captured_void : Captured unit :=
  fun _ => {[ "value" := "undefined" ]}.

Definition withSpan {S} `{HasWorld S} {T} `{Captured T} (name : string)
    (spanType : SpanType) (fn : string -> Prog S T) (options : SpanOptions)
  : Prog S T :=
  spanId <- in_world (startSpan name spanType options) ;;
  try_catch
    (result <- fn spanId ;;
     in_world (endSpan spanId st_completed
       {| end_output := Some (capture result); end_error := None;
          end_metadata := None |}) ;;;
     ret result)
    (fun errorMessage =>
       in_world (endSpan spanId st_error
         {| end_output := Some {[ "message" := errorMessage ]};
            end_error := Some errorMessage;
            end_metadata := None |}) ;;;
       throw errorMessage).

(** [withTrace(agentId, traceName, fn, metadata)] *)
Definition withTrace {S} `{HasWorld S} {T} (agentId traceName : string)
    (fn : string -> Prog S T) (metadata : option Json) : Prog S T :=
  traceId <- in_world (createTrace agentId traceName metadata) ;;
  try_catch
    (result <- fn traceId ;;
     in_world (endTrace traceId st_completed None) ;;;
     ret result)
    (fun errorMessage =>
       in_world (endTrace traceId st_error (Some errorMessage)) ;;;
       throw errorMessage).

End Tracing.

(** ** Paths (path, posix) *)

Module Path.

Definition is_slash (c : Ascii.ascii) : bool := Ascii.eqb c (Ascii.ascii_of_nat 47).

Fixpoint skip (unwanted : Ascii.ascii -> bool) (l : list Ascii.ascii) : list Ascii.ascii :=
  match l with
  | c :: rest => if unwanted c then skip unwanted rest else l
  | [] => []
  end.

(** [dirname]: from the end of the path the trailing separators and the
    last segment are passed over (the first character is never looked
    at); what stands before the separator found is the answer. *)
Definition dirname (path : string) : string :=
  match String.list_ascii_of_string path with
  | [] => "."
  | first :: rest =>
      let hasRoot := is_slash first in
      let backwards := skip is_slash (rev rest) in
      match skip (fun c => negb (is_slash c)) backwards with
      | [] => if hasRoot then "/" else "."
      | _ :: before =>
          match before with
          | [] => if hasRoot then "//" else String.string_of_list_ascii [first]
          | _ => String.string_of_list_ascii (first :: rev before)
          end
      end
  end.

(** The segments between the separators. *)
Fixpoint split (s : string) : list string :=
  match s with
  | EmptyString => [""]
  | String c rest =>
      if is_slash c then "" :: split rest
      else match split rest with
           | head :: tail => String c head :: tail
           | [] => [String c EmptyString]
           end
  end.

Fixpoint unsplit (segments : list string) : string :=
  match segments with
  | [] => ""
  | [segment] => segment
  | segment :: rest => segment +:+ "/" +:+ unsplit rest
  end.

(** One segment of [normalizeString]; the segments kept so far are held
    last first. *)
Definition resolve (allowAboveRoot : bool) (kept : list string) (segment : string)
  : list string :=
  if String.eqb segment "" || String.eqb segment "." then kept
  else if String.eqb segment ".." then
    match kept with
    | top :: below =>
        if String.eqb top ".." then (if allowAboveRoot then ".." :: kept else kept)
        else below
    | [] => if allowAboveRoot then [".."] else []
    end
  else segment :: kept.

Definition normalize (path : string) : string :=
  match String.list_ascii_of_string path with
  | [] => "."
  | first :: _ =>
      let isAbsolute := is_slash first in
      let trailingSeparator :=
        match last (String.list_ascii_of_string path) with
        | Some c => is_slash c
        | None => false
        end in
      let body := unsplit (rev (fold_left (resolve (negb isAbsolute)) (split path) [])) in
      if String.eqb body "" then
        if isAbsolute then "/" else if trailingSeparator then "./" else "."
      else
        (if isAbsolute then "/" else "") +:+ body
        +:+ (if trailingSeparator then "/" else "")
  end.

(** [join(...paths)]: the non-empty arguments, joined by separators and
    normalised. *)
Definition join (paths : list string) : string :=
  match filter (fun p => p ≠ "") paths with
  | [] => "."
  | parts => normalize (unsplit parts)
  end.

End Path.

(** ** The file system calls used by the orchestrator (fs, fs/promises)

    Files are a finite map from paths to their utf-8 text, directories a
    set of normalised paths; the working directory and the root always
    exist.  A path names what is stored under its text: links, and two
    spellings of one file, are outside the model.  A write is refused when
    the path is empty or ends in a separator, when a directory stands at
    the path, when the directory of the path does not exist, and at the
    paths in [denied] (no permission, a read-only or a full volume).
    [mkdir] with [recursive: true] is taken to succeed. *)

Module Fs.

(** [existsSync], asked about a file.  About a directory it answers
    [false] here; the code asks that only before a recursive [mkdir],
    which leaves an existing directory as it is. *)
Definition existsSync (path : string) : M bool :=
  fun w => (Returned (bool_decide (is_Some (files w !! path))), w).

Definition readFile (path : string) : M string :=
  fun w =>
    match files w !! path with
    | Some text => (Returned text, w)
    | None => (Thrown ("ENOENT: no such file or directory, open '" +:+ path +:+ "'"), w)
    end.

(** The path of a directory as [dirs] holds it: normalised, with no
    separator at its end. *)
Definition directory (path : string) : string := Path.join [path; "."].

Definition is_directory (w : World) (path : string) : bool :=
  let d := directory path in
  String.eqb d "." || String.eqb d "/" || bool_decide (d ∈ dirs w).

(** The directory and those above it, nearest first. *)
Fixpoint lineage (fuel : nat) (d : string) : list string :=
  match fuel with
  | O => []
  | S fuel' =>
      if String.eqb d "." || String.eqb d "/" then []
      else d :: lineage fuel' (Path.dirname d)
  end.

(** [mkdir(path, { recursive: true })] *)
Definition mkdir (path : string) : M unit :=
  modify (fun w =>
    let d := directory path in
    set_dirs (list_to_set (lineage (String.length d) d) ∪ dirs w) w).

(** The error with which the system rejects a write at [path], if it does. *)
Definition refusal (w : World) (path : string) : option string :=
  let ends_in_slash :=
    match last (String.list_ascii_of_string path) with
    | Some c => Path.is_slash c
    | None => false
    end in
  if String.eqb path "" then
    Some "ENOENT: no such file or directory, open ''"
  else if ends_in_slash || is_directory w path then
    Some ("EISDIR: illegal operation on a directory, open '" +:+ path +:+ "'")
  else if negb (is_directory w (Path.dirname path)) then
    Some ((if bool_decide (is_Some (files w !! directory (Path.dirname path)))
           then "ENOTDIR: not a directory, open '"
           else "ENOENT: no such file or directory, open '") +:+ path +:+ "'")
  else denied w !! path.

(** [writeFile(path, content, 'utf-8')] *)
Definition writeFile (path content : string) : M unit :=
  fun w =>
    match refusal w path with
    | Some e => (Thrown e, w)
    | None =>
        (Returned tt,
         set_files (<[path := toWellFormed content]> (files w))
           ((path, toWellFormed content) :: writes w) w)
    end.

End Fs.

(** ** orchestrator/memory.ts *)

Module Memory.
Import Fs.

(** Each line of a template literal, closed by a line feed. *)
Fixpoint lines (ls : list string) : string :=
  match ls with
  | [] => ""
  | l :: rest => l +:+ nl +:+ lines rest
  end.

(** The default memory template of [readMemory]. *)
Definition defaultMemory (agentId instructions : string) (createdAt : Date) : string :=
  "# Research Agent Memory - " +:+ agentId +:+ nl +:+
  "Created: " +:+ toISOString createdAt +:+ nl +:+
  "Instructions: " +:+ instructions +:+ nl +:+
  lines [ "";
          "## Research Query";
          "(Research query will be specified when agent is created)";
          "";
          "## Cycle History";
          "- [" +:+ toISOString createdAt +:+ "] Cycle 0: Initial creation";
          "";
          "## Research Progress";
          "### Topics Explored";
          "(Research topics will be tracked here)";
          "";
          "### Sources Found";
          "(Sources and URLs will be tracked here)";
          "";
          "### Key Findings";
          "(Key findings and insights will be tracked here)";
          "";
          "## Current State";
          "Awaiting first research cycle";
          "";
          "## Notes";
          "(Agent's persistent notes and research observations will appear here)" ].

Definition readMemory (memoryPath agentId instructions : string) (createdAt : Date)
  : M string :=
  try_catch
    (present <- existsSync memoryPath ;;
     if present then readFile memoryPath
     else ret (defaultMemory agentId instructions createdAt))
    (fun _ => ret "").

Definition writeMemory (memoryPath content agentId : string) : M unit :=
  try_catch (writeFile memoryPath content) (fun _ => ret tt).

End Memory.

(** ** Long-term memory: utils/embeddings.ts, [longTermMemoryDb] and the
    two bridge methods of the orchestrator *)

Module LongTermMemory.

(** A JavaScript number of an embedding or a similarity score. *)
Abbreviation number := Q.

(** What a Supabase request resolves to: [{ data, error }]. *)
Record Response (A : Type) := { data : option A; error : option string }.
Arguments data {A} _.
Arguments error {A} _.

Record LongTermMemoryRow := {
  ltm_id : string;
  ltm_agent_id : string;
  ltm_title : string;
  ltm_content : string;
  ltm_category : string;
  ltm_embedding : option (list number);
  ltm_metadata : Json;
}.

Record LongTermMemoryInsert := {
  new_agent_id : string;
  new_title : string;
  new_content : string;
  new_category : string;
  new_embedding : list number;
  new_metadata : option Json;
}.

Record LongTermMemorySearchResult := {
  hit_id : string;
  hit_title : string;
  hit_content : string;
  hit_category : string;
  hit_similarity : number;
}.

Record SearchOptions := {
  so_agentId : option string;
  so_threshold : option number;
  so_limit : option Z;
}.

(** The external collaborators: the embedding pipeline and the vector
    store, each given by what it answers. *)
Record Services := {
  (* [model(text, { pooling, normalize })]: the vector in [output.data], or the error raised *)
  pipeline : string -> outcome (list number);
  (* [from('long_term_memories').insert(row).select().single()] *)
  insert_memory : LongTermMemoryInsert -> Response LongTermMemoryRow;
  (* [rpc('match_long_term_memories', { query_embedding, match_threshold, match_count, filter_agent_id })] *)
  match_long_term_memories :
    list number -> number -> Z -> option string ->
    Response (list LongTermMemorySearchResult);
}.

Section WithServices.
Context (env : Services).

(** [generateEmbedding] of utils/embeddings.ts *)
Definition generateEmbedding {S} (text : string) : Prog S (list number) :=
  try_catch
    (match pipeline env text with
     | Thrown e => throw e
     | Returned embedding =>
         if negb (length embedding =? 384)%nat
         then throw ("Expected 384 dimensions but got " +:+ pretty (length embedding)
                     +:+ ". This may indicate an issue with the embedding model.")
         else ret embedding
     end)
    (fun e => throw e).

(** [longTermMemoryDb.create] *)
Definition longTermMemoryDb_create (memory : LongTermMemoryInsert)
  : option LongTermMemoryRow :=
  let response :=
    insert_memory env
      {| new_agent_id := new_agent_id memory;
         new_title := new_title memory;
         new_content := new_content memory;
         new_category := new_category memory;
         new_embedding := new_embedding memory;
         new_metadata := Some (default ∅ (new_metadata memory)) |} in
  match error response with
  | Some _ => None
  | None => data response
  end.

(** [longTermMemoryDb.search] *)
Definition longTermMemoryDb_search (queryEmbedding : list number)
    (options : SearchOptions) : list LongTermMemorySearchResult :=
  let agentId := so_agentId options in
  let threshold := default (7 # 10) (so_threshold options) in
  let limit := default 5 (so_limit options) in
  let response :=
    match_long_term_memories env queryEmbedding threshold limit
      (js_or agentId None) in
  match error response with
  | Some _ => []
  | None => default [] (data response)
  end.

End WithServices.

End LongTermMemory.

(** ** orchestrator/subAgent.ts *)

Module SubAgent.
Import Tracing Fs.

Inductive SubAgentStatus := pending | researching | completed | failed.

#[export] Instance SubAgentStatus_eq_dec : EqDecision SubAgentStatus.
Proof. solve_decision. Defined.

(** The handle returned by [query({ prompt, options })]. *)
Inductive Query := query (prompt : string).

Record SubAgentRunner := {
  id : string;
  parentId : string;
  task : string;
  reportPath : string;
  createdAt : Date;
  status : SubAgentStatus;
  completedAt : option Date;
  error : option string;
  currentQuery : option Query;
  traceId : option string;
  parentSpanId : option string;
}.

(** [new SubAgentRunner(parentId, task, reportPath, id)] at time [created]. *)
Definition new (parentId task reportPath id : string) (created : Date) : SubAgentRunner :=
  {| id := id; parentId := parentId; task := task; reportPath := reportPath;
     createdAt := created; status := pending; completedAt := None; error := None;
     currentQuery := None; traceId := None; parentSpanId := None |}.

(** Assignments to the mutable fields. *)
Definition assign (st : SubAgentStatus) (done : option Date) (err : option string)
    (q : option Query) (r : SubAgentRunner) : SubAgentRunner :=
  {| id := id r; parentId := parentId r; task := task r; reportPath := reportPath r;
     createdAt := createdAt r; status := st; completedAt := done; error := err;
     currentQuery := q; traceId := traceId r; parentSpanId := parentSpanId r |}.

Definition set_status (st : SubAgentStatus) (r : SubAgentRunner) :=
  assign st (completedAt r) (error r) (currentQuery r) r.

Definition set_completedAt (d : Date) (r : SubAgentRunner) :=
  assign (status r) (Some d) (error r) (currentQuery r) r.

Definition set_error (e : string) (r : SubAgentRunner) :=
  assign (status r) (completedAt r) (Some e) (currentQuery r) r.

Definition set_currentQuery (q : option Query) (r : SubAgentRunner) :=
  assign (status r) (completedAt r) (error r) q r.

(** [setTraceContext(traceId, parentSpanId)] of the runner. *)
Definition setTraceContext (t p : string) (r : SubAgentRunner) : SubAgentRunner :=
  {| id := id r; parentId := parentId r; task := task r; reportPath := reportPath r;
     createdAt := createdAt r; status := status r; completedAt := completedAt r;
     error := error r; currentQuery := currentQuery r;
     traceId := Some t; parentSpanId := Some p |}.

(** [getInfo()] *)
Record SubAgentInfo := {
  info_id : string;
  info_parentId : string;
  info_status : SubAgentStatus;
  info_task : string;
  info_reportPath : string;
  info_createdAt : Date;
  info_completedAt : option Date;
  info_error : option string;
}.

Definition getInfo (r : SubAgentRunner) : SubAgentInfo :=
  {| info_id := id r; info_parentId := parentId r; info_status := status r;
     info_task := task r; info_reportPath := reportPath r;
     info_createdAt := createdAt r; info_completedAt := completedAt r;
     info_error := error r |}.

(** Methods run on the runner object and the world around it. *)
Abbreviation RunnerM := (Prog (SubAgentRunner * World)).

Definition this : RunnerM SubAgentRunner := fun s => (Returned (fst s), s).

Definition update (f : SubAgentRunner -> SubAgentRunner) : RunnerM unit :=
  modify (fun s => (f (fst s), snd s)).

(** [await this.currentQuery.interrupt()] *)
Definition interrupt : RunnerM unit := in_world (modify add_interrupt).

(** *** The stream of the query engine *)

Inductive ContentBlock :=
  | text_block (text : string)
  | tool_use (call_id name : string) (input : Json)
  | other_block.

Inductive SDKMessage :=
  | assistant (content : option (list ContentBlock)) (* [None]: the content is not an array *)
  | result (subtype : string) (errors : option (list string)) (usage : Json)
  | stream_event
  | system
  | other_message.

(** What happens while [run] is suspended on the stream: the stream
    delivers a message or throws, the engine runs the tool handler of the
    in-process server, somebody calls [stop()], or the clock moves. *)
Inductive EngineEvent :=
  | yields (message : SDKMessage)
  | raises (message : string)
  | calls_saveReport (content : string)
  | stop_called
  | clock_shows (d : Date).

(** *** The saveReport tool *)

Definition reportHeader (r : SubAgentRunner) (timestamp : string) : string :=
  "# Sub-Agent Research Report" +:+ nl +:+
  "Sub-Agent ID: " +:+ id r +:+ nl +:+
  "Parent Orchestrator: " +:+ parentId r +:+ nl +:+
  "Task: " +:+ task r +:+ nl +:+
  "Generated: " +:+ timestamp +:+ nl +:+
  nl.

(** The handler of [saveReportTool]; it answers the text of the tool result. *)
Definition saveReport (content : string) : RunnerM string :=
  r <- this ;;
  try_catch
    (let dir := Path.dirname (reportPath r) in
     present <- in_world (existsSync dir) ;;
     (if negb present then in_world (mkdir dir) else ret tt) ;;;
     w <- in_world get ;;
     let timestamp := toISOString (now w) in
     let reportContent := reportHeader r timestamp +:+ content +:+ nl in
     in_world (writeFile (reportPath r) reportContent) ;;;
     ret ("Research report has been saved to " +:+ reportPath r
          +:+ ". Your task is complete."))
    (fun e => ret ("Error saving report: " +:+ e)).

(** *** [stop()] *)

Definition stop : RunnerM unit :=
  r <- this ;;
  match currentQuery r with
  | Some _ => interrupt ;;; update (set_currentQuery None)
  | None => ret tt
  end ;;;
  r <- this ;;
  if bool_decide (status r = researching)
  then update (set_status failed) ;;; update (set_error "Interrupted")
  else ret tt.

(** *** [run()] *)

Definition MAX_MESSAGES : nat := 20.

(** The local variables of the message loop. *)
Record Locals := {
  reportSaved : bool;
  messageCount : nat;
  toolSpans : list (string * string);  (* a [Map], in insertion order *)
}.

(** [Map.prototype.set] and [Map.prototype.delete] on tool call ids. *)
Fixpoint map_set (k v : string) (m : list (string * string)) : list (string * string) :=
  match m with
  | [] => [(k, v)]
  | (k', v') :: m' =>
      if String.eqb k k' then (k, v) :: m' else (k', v') :: map_set k v m'
  end.

Definition map_delete (k : string) (m : list (string * string)) : list (string * string) :=
  filter (fun e => k ≠ e.1) m.

Fixpoint for_each {S A} (f : A -> Prog S unit) (l : list A) : Prog S unit :=
  match l with
  | [] => ret tt
  | a :: rest => f a ;;; for_each f rest
  end.

(** One content block of an assistant message. *)
Definition on_block (llmSpanId : string) (block : ContentBlock) (l : Locals)
  : RunnerM Locals :=
  match block with
  | tool_use call_id name input =>
      r <- this ;;
      toolSpanId <- in_world (startSpan ("tool_" +:+ name) tool
                      {| opt_traceId := traceId r;
                         opt_parentSpanId := Some llmSpanId;
                         opt_input := Some input;
                         opt_metadata := Some {[ "tool_id" := call_id ]} |}) ;;
      let spans1 := map_set call_id toolSpanId (toolSpans l) in
      if String.eqb name "saveReport" then
        in_world (endSpan toolSpanId st_completed
          {| end_output := Some {[ "report_path" := reportPath r ]};
             end_error := None; end_metadata := None |}) ;;;
        ret {| reportSaved := true; messageCount := messageCount l;
               toolSpans := map_delete call_id spans1 |}
      else
        ret {| reportSaved := reportSaved l; messageCount := messageCount l;
               toolSpans := spans1 |}
  | _ => ret l
  end.

Fixpoint on_blocks (llmSpanId : string) (content : list ContentBlock) (l : Locals)
  : RunnerM Locals :=
  match content with
  | [] => ret l
  | block :: rest => l' <- on_block llmSpanId block l ;; on_blocks llmSpanId rest l'
  end.

(** The body of [for await (const message of this.currentQuery)]; the
    boolean tells whether the body left the loop with [break]. *)
Definition on_message (llmSpanId : string) (message : SDKMessage) (l : Locals)
  : RunnerM (Locals * bool) :=
  let l := {| reportSaved := reportSaved l; messageCount := S (messageCount l);
              toolSpans := toolSpans l |} in
  if (MAX_MESSAGES <? messageCount l)%nat then
    r <- this ;;
    match currentQuery r with
    | Some _ => interrupt
    | None => ret tt
    end ;;;
    update (set_status failed) ;;;
    update (set_error ("Stopped after " +:+ pretty MAX_MESSAGES
                       +:+ " messages - research taking too long")) ;;;
    ret (l, true)
  else
    match message with
    | assistant (Some content) =>
        l' <- on_blocks llmSpanId content l ;;
        ret (l', false)
    | result subtype errors usage =>
        for_each (fun entry =>
            in_world (endSpan entry.2 st_completed
              {| end_output := None; end_error := None;
                 end_metadata := Some {[ "note" := "Tool span ended with LLM query" ]} |}))
          (toolSpans l) ;;;
        if String.eqb subtype "success" then
          in_world (endSpan llmSpanId st_completed
            {| end_output := Some (<[ "report_saved" :=
                                      if reportSaved l then "true" else "false" ]> usage);
               end_error := None;
               end_metadata := Some {[ "message_count" := pretty (messageCount l) ]} |}) ;;;
          (if reportSaved l then
             update (set_status completed) ;;;
             w <- in_world get ;;
             update (set_completedAt (now w))
           else
             update (set_status failed) ;;;
             update (set_error "Report not saved")) ;;;
          ret (l, false)
        else
          let errorMessage :=
            match errors with
            | Some (e :: _) => e
            | _ => "Unknown error"
            end in
          in_world (endSpan llmSpanId st_error
            {| end_output := Some {[ "errors" := default "" (errors ≫= head) ]};
               end_error := Some errorMessage;
               end_metadata := None |}) ;;;
          update (set_status failed) ;;;
          update (set_error errorMessage) ;;;
          ret (l, false)
    | _ => ret (l, false)
    end.

(** The message loop, fed with what happens while it runs. *)
Fixpoint for_await (llmSpanId : string) (events : list EngineEvent) (l : Locals)
  : RunnerM Locals :=
  match events with
  | [] => ret l
  | yields message :: rest =>
      step <- on_message llmSpanId message l ;;
      if step.2 then ret step.1 else for_await llmSpanId rest step.1
  | raises e :: _ => throw e
  | calls_saveReport content :: rest =>
      _ <- saveReport content ;; for_await llmSpanId rest l
  | stop_called :: rest => stop ;;; for_await llmSpanId rest l
  | clock_shows d :: rest =>
      in_world (modify (set_now d)) ;;;
      for_await llmSpanId rest l
  end.

Definition taskPrompt (r : SubAgentRunner) : string :=
  "Task: " +:+ task r +:+ nl +:+ nl +:+
  "Quickly research this topic using web search. Find the key information, summarize it briefly, and save your report. Keep it concise - aim for 200-300 words total.".

(** [run()], with the events that occur while its query is open. *)
Definition run (events : list EngineEvent) : RunnerM unit :=
  r <- this ;;
  if negb (bool_decide (status r = pending)) then
    throw ("SubAgent " +:+ id r +:+ " is not in pending status")
  else
    update (set_status researching) ;;;
    withSpan ("sub_agent_" +:+ String.substring 0 50 (task r)) sub_agent
      (fun subAgentSpanId =>
         match js_or (traceId r) None with
         | Some t =>
             in_world (Tracing.setTraceContext
               (Some {| Ambient.traceId := t;
                        Ambient.currentSpanId := Some subAgentSpanId |}))
         | None => ret tt
         end ;;;
         present <- in_world (existsSync (Path.dirname (reportPath r))) ;;
         (if negb present then in_world (mkdir (Path.dirname (reportPath r)))
          else ret tt) ;;;
         withSpan "sub_agent_llm_query" llm
           (fun llmSpanId =>
              try_catch
                (update (set_currentQuery (Some (query (taskPrompt r)))) ;;;
                 _ <- for_await llmSpanId events
                        {| reportSaved := false; messageCount := 0; toolSpans := [] |} ;;
                 update (set_currentQuery None))
                (fun e =>
                   update (set_status failed) ;;;
                   update (set_error e) ;;;
                   update (set_currentQuery None) ;;;
                   throw e))
           {| opt_traceId := traceId r;
              opt_parentSpanId := Some subAgentSpanId;
              opt_input := Some {[ "task" := task r;
                                   "prompt" := String.substring 0 500 (taskPrompt r) ]};
              opt_metadata := None |} ;;;
         r' <- this ;;
         in_world (endSpan subAgentSpanId
           (if bool_decide (status r' = completed) then st_completed else st_error)
           {| end_output := Some {[ "report_path" := reportPath r' ]};
              end_error := None; end_metadata := None |}))
      {| opt_traceId := traceId r;
         opt_parentSpanId := parentSpanId r;
         opt_input := Some {[ "task" := task r; "sub_agent_id" := id r;
                              "parent_id" := parentId r ]};
         opt_metadata := Some {[ "report_path" := reportPath r ]} |}.

End SubAgent.

(** ** orchestrator/agent.ts *)

Module Agent.
Import Tracing Fs Memory LongTermMemory.
Export SubAgent (Query, query, SubAgentRunner, SDKMessage, assistant, result,
  stream_event, system, other_message).

Inductive AgentStatus := running | paused | sleeping | stopped.

#[export] Instance AgentStatus_eq_dec : EqDecision AgentStatus.
Proof. solve_decision. Defined.

(** The timer behind a sleep: still to fire, or cleared before it did. *)
Inductive Timer := scheduled | cleared.

(** Where a call of [cycleLoop()] (with the [runCycle()] inside it) is
    suspended, or how its promise was settled. *)
Inductive LoopPoint :=
  | at_while                                      (* released from a pause in [cycleLoop]: [continue] is next *)
  | awaiting_resume                               (* [cycleLoop]: awaiting the pause promise *)
  | building_cycle                                (* [runCycle]: the awaits before [query()] is called *)
  | awaiting_message (sleepRequested : bool)      (* [for await]: awaiting the next message *)
  | closing_result (sleepRequested : bool)        (* a successful result came: awaiting [endSpan] of the llm span *)
  | pausing_in_stream (sleepRequested : bool)     (* loop body, paused: awaiting [interrupt()] *)
  | awaiting_resume_in_stream (sleepRequested : bool) (* loop body: awaiting the pause promise *)
  | stream_closed (sleepRequested : bool)         (* out of the loop, at the last await before the sleep decision *)
  | awaiting_sleep (timer : Timer)                (* awaiting the sleep promise *)
  | slept                                         (* the timer has fired: the sleep promise is resolved *)
  | leaving_cycle                                 (* [runCycle] cleaned up, its spans are being closed *)
  | awaiting_delay                                (* the one-second delay between cycles *)
  | loop_returned                                 (* the promise is fulfilled *)
  | loop_threw (message : string).                (* the promise is rejected *)

(** Where a call of [start()] is suspended, or how it ended. *)
Inductive StartPoint :=
  | creating_trace                                (* awaiting [createTrace] *)
  | making_directory                              (* awaiting [mkdir] of the memory directory *)
  | reading_memory                                (* awaiting [readMemory] *)
  | writing_memory (defaultMemory : string)       (* awaiting [writeMemory] *)
  | start_returned
  | start_threw (message : string).

(** Where a call of [stop()] is suspended, or how it ended. *)
Inductive StopPoint :=
  | stop_interrupting                             (* awaiting [currentQuery.interrupt()] *)
  | stopping_subAgents                            (* awaiting the [stop()] calls of the sub-agents *)
  | awaiting_loop (loop : nat)                    (* awaiting [cycleLoopPromise] *)
  | ending_trace (traceId : string)               (* awaiting [endTrace] of that trace *)
  | stop_returned
  | stop_threw (message : string).

(** Where a call of [pause()] is suspended, or that it ended. *)
Inductive PausePoint :=
  | pause_interrupting                            (* awaiting [currentQuery.interrupt()] *)
  | pause_returned.

Inductive Task :=
  | loop_at (point : LoopPoint)
  | start_at (point : StartPoint)
  | stop_at (point : StopPoint)
  | pause_at (point : PausePoint).

Record Agent := {
  id : string;
  status : AgentStatus;
  cycleCount : nat;
  memoryPath : string;
  instructions : string;
  researchQuery : option string;
  resultsPath : option string;
  createdAt : Date;
  lastCycleAt : option Date;
  sleepUntil : option Z;  (* the deadline, in epoch milliseconds *)
  currentQuery : option Query;
  sleepTimeout : option nat;  (* the timer of the loop task with that number *)
  isPaused : bool;
  pauseResolve : option nat;  (* the resolver of the pause promise that task awaits *)
  cycleLoopPromise : option nat;  (* the promise of the loop task with that number *)
  shouldStop : bool;
  subAgents : gmap string SubAgentRunner;
  traceId : option string;
  tasks : list Task;  (* the calls of this object's methods, by number *)
}.

(** [new AgentOrchestrator(id, instructions, memoryPath, researchQuery,
    resultsPath)] at time [created]. *)
Definition new (id instructions memoryPath : string)
    (researchQuery resultsPath : option string) (created : Date) : Agent :=
  {| id := id; status := stopped; cycleCount := 0; memoryPath := memoryPath;
     instructions := instructions; researchQuery := researchQuery;
     resultsPath := resultsPath; createdAt := created; lastCycleAt := None;
     sleepUntil := None; currentQuery := None; sleepTimeout := None;
     isPaused := false; pauseResolve := None; cycleLoopPromise := None;
     shouldStop := false; subAgents := ∅; traceId := None; tasks := [] |}.

(** Assignments to the mutable fields. *)
Definition set_status (v : AgentStatus) (a : Agent) : Agent :=
  {| id := id a; status := v; cycleCount := cycleCount a; memoryPath := memoryPath a;
     instructions := instructions a; researchQuery := researchQuery a; resultsPath :=
     resultsPath a; createdAt := createdAt a; lastCycleAt := lastCycleAt a; sleepUntil
     := sleepUntil a; currentQuery := currentQuery a; sleepTimeout := sleepTimeout a;
     isPaused := isPaused a; pauseResolve := pauseResolve a; cycleLoopPromise :=
     cycleLoopPromise a; shouldStop := shouldStop a; subAgents := subAgents a; traceId
     := traceId a; tasks := tasks a |}.

Definition set_cycleCount (v : nat) (a : Agent) : Agent :=
  {| id := id a; status := status a; cycleCount := v; memoryPath := memoryPath a;
     instructions := instructions a; researchQuery := researchQuery a; resultsPath :=
     resultsPath a; createdAt := createdAt a; lastCycleAt := lastCycleAt a; sleepUntil
     := sleepUntil a; currentQuery := currentQuery a; sleepTimeout := sleepTimeout a;
     isPaused := isPaused a; pauseResolve := pauseResolve a; cycleLoopPromise :=
     cycleLoopPromise a; shouldStop := shouldStop a; subAgents := subAgents a; traceId
     := traceId a; tasks := tasks a |}.

Definition set_lastCycleAt (v : option Date) (a : Agent) : Agent :=
  {| id := id a; status := status a; cycleCount := cycleCount a; memoryPath :=
     memoryPath a; instructions := instructions a; researchQuery := researchQuery a;
     resultsPath := resultsPath a; createdAt := createdAt a; lastCycleAt := v;
     sleepUntil := sleepUntil a; currentQuery := currentQuery a; sleepTimeout :=
     sleepTimeout a; isPaused := isPaused a; pauseResolve := pauseResolve a;
     cycleLoopPromise := cycleLoopPromise a; shouldStop := shouldStop a; subAgents :=
     subAgents a; traceId := traceId a; tasks := tasks a |}.

Definition set_sleepUntil (v : option Z) (a : Agent) : Agent :=
  {| id := id a; status := status a; cycleCount := cycleCount a; memoryPath :=
     memoryPath a; instructions := instructions a; researchQuery := researchQuery a;
     resultsPath := resultsPath a; createdAt := createdAt a; lastCycleAt := lastCycleAt
     a; sleepUntil := v; currentQuery := currentQuery a; sleepTimeout := sleepTimeout a;
     isPaused := isPaused a; pauseResolve := pauseResolve a; cycleLoopPromise :=
     cycleLoopPromise a; shouldStop := shouldStop a; subAgents := subAgents a; traceId
     := traceId a; tasks := tasks a |}.

Definition set_currentQuery (v : option Query) (a : Agent) : Agent :=
  {| id := id a; status := status a; cycleCount := cycleCount a; memoryPath :=
     memoryPath a; instructions := instructions a; researchQuery := researchQuery a;
     resultsPath := resultsPath a; createdAt := createdAt a; lastCycleAt := lastCycleAt
     a; sleepUntil := sleepUntil a; currentQuery := v; sleepTimeout := sleepTimeout a;
     isPaused := isPaused a; pauseResolve := pauseResolve a; cycleLoopPromise :=
     cycleLoopPromise a; shouldStop := shouldStop a; subAgents := subAgents a; traceId
     := traceId a; tasks := tasks a |}.

Definition set_sleepTimeout (v : option nat) (a : Agent) : Agent :=
  {| id := id a; status := status a; cycleCount := cycleCount a; memoryPath :=
     memoryPath a; instructions := instructions a; researchQuery := researchQuery a;
     resultsPath := resultsPath a; createdAt := createdAt a; lastCycleAt := lastCycleAt
     a; sleepUntil := sleepUntil a; currentQuery := currentQuery a; sleepTimeout := v;
     isPaused := isPaused a; pauseResolve := pauseResolve a; cycleLoopPromise :=
     cycleLoopPromise a; shouldStop := shouldStop a; subAgents := subAgents a; traceId
     := traceId a; tasks := tasks a |}.

Definition set_isPaused (v : bool) (a : Agent) : Agent :=
  {| id := id a; status := status a; cycleCount := cycleCount a; memoryPath :=
     memoryPath a; instructions := instructions a; researchQuery := researchQuery a;
     resultsPath := resultsPath a; createdAt := createdAt a; lastCycleAt := lastCycleAt
     a; sleepUntil := sleepUntil a; currentQuery := currentQuery a; sleepTimeout :=
     sleepTimeout a; isPaused := v; pauseResolve := pauseResolve a; cycleLoopPromise :=
     cycleLoopPromise a; shouldStop := shouldStop a; subAgents := subAgents a; traceId
     := traceId a; tasks := tasks a |}.

Definition set_pauseResolve (v : option nat) (a : Agent) : Agent :=
  {| id := id a; status := status a; cycleCount := cycleCount a; memoryPath :=
     memoryPath a; instructions := instructions a; researchQuery := researchQuery a;
     resultsPath := resultsPath a; createdAt := createdAt a; lastCycleAt := lastCycleAt
     a; sleepUntil := sleepUntil a; currentQuery := currentQuery a; sleepTimeout :=
     sleepTimeout a; isPaused := isPaused a; pauseResolve := v; cycleLoopPromise :=
     cycleLoopPromise a; shouldStop := shouldStop a; subAgents := subAgents a; traceId
     := traceId a; tasks := tasks a |}.

Definition set_cycleLoopPromise (v : option nat) (a : Agent) : Agent :=
  {| id := id a; status := status a; cycleCount := cycleCount a; memoryPath :=
     memoryPath a; instructions := instructions a; researchQuery := researchQuery a;
     resultsPath := resultsPath a; createdAt := createdAt a; lastCycleAt := lastCycleAt
     a; sleepUntil := sleepUntil a; currentQuery := currentQuery a; sleepTimeout :=
     sleepTimeout a; isPaused := isPaused a; pauseResolve := pauseResolve a;
     cycleLoopPromise := v; shouldStop := shouldStop a; subAgents := subAgents a;
     traceId := traceId a; tasks := tasks a |}.

Definition set_shouldStop (v : bool) (a : Agent) : Agent :=
  {| id := id a; status := status a; cycleCount := cycleCount a; memoryPath :=
     memoryPath a; instructions := instructions a; researchQuery := researchQuery a;
     resultsPath := resultsPath a; createdAt := createdAt a; lastCycleAt := lastCycleAt
     a; sleepUntil := sleepUntil a; currentQuery := currentQuery a; sleepTimeout :=
     sleepTimeout a; isPaused := isPaused a; pauseResolve := pauseResolve a;
     cycleLoopPromise := cycleLoopPromise a; shouldStop := v; subAgents := subAgents a;
     traceId := traceId a; tasks := tasks a |}.

Definition set_subAgents (v : gmap string SubAgentRunner) (a : Agent) : Agent :=
  {| id := id a; status := status a; cycleCount := cycleCount a; memoryPath :=
     memoryPath a; instructions := instructions a; researchQuery := researchQuery a;
     resultsPath := resultsPath a; createdAt := createdAt a; lastCycleAt := lastCycleAt
     a; sleepUntil := sleepUntil a; currentQuery := currentQuery a; sleepTimeout :=
     sleepTimeout a; isPaused := isPaused a; pauseResolve := pauseResolve a;
     cycleLoopPromise := cycleLoopPromise a; shouldStop := shouldStop a; subAgents := v;
     traceId := traceId a; tasks := tasks a |}.

Definition set_traceId (v : option string) (a : Agent) : Agent :=
  {| id := id a; status := status a; cycleCount := cycleCount a; memoryPath :=
     memoryPath a; instructions := instructions a; researchQuery := researchQuery a;
     resultsPath := resultsPath a; createdAt := createdAt a; lastCycleAt := lastCycleAt
     a; sleepUntil := sleepUntil a; currentQuery := currentQuery a; sleepTimeout :=
     sleepTimeout a; isPaused := isPaused a; pauseResolve := pauseResolve a;
     cycleLoopPromise := cycleLoopPromise a; shouldStop := shouldStop a; subAgents :=
     subAgents a; traceId := v; tasks := tasks a |}.

Definition set_tasks (v : list Task) (a : Agent) : Agent :=
  {| id := id a; status := status a; cycleCount := cycleCount a; memoryPath :=
     memoryPath a; instructions := instructions a; researchQuery := researchQuery a;
     resultsPath := resultsPath a; createdAt := createdAt a; lastCycleAt := lastCycleAt
     a; sleepUntil := sleepUntil a; currentQuery := currentQuery a; sleepTimeout :=
     sleepTimeout a; isPaused := isPaused a; pauseResolve := pauseResolve a;
     cycleLoopPromise := cycleLoopPromise a; shouldStop := shouldStop a; subAgents :=
     subAgents a; traceId := traceId a; tasks := v |}.

Abbreviation AgentM := (Prog (Agent * World)).

Definition this : AgentM Agent := fun s => (Returned (fst s), s).

Definition update (f : Agent -> Agent) : AgentM unit :=
  modify (fun s => (f (fst s), snd s)).

(** [await this.currentQuery.interrupt()]: the request goes out when the
    call is made. *)
Definition interrupt : AgentM unit := in_world (modify add_interrupt).

(** *** Bridge methods *)

Definition handleSleep (durationSeconds : Z) : AgentM unit :=
  w <- in_world get ;;
  update (set_sleepUntil (Some (getTime (now w) + durationSeconds * 1000))).


(** One element of the list answered by [searchLongTermMemory]. *)
Record MemoryHit := {
  title : string;
  content : string;
  similarity : number;
}.

Section WithServices.
Context (env : Services).

Definition saveLongTermMemory (title content : string) (category : option string)
  : AgentM string :=
  let category := default "research" category in
  a <- this ;;
  try_catch
    (embedding <- generateEmbedding env content ;;
     match longTermMemoryDb_create env
             {| new_agent_id := id a;
                new_title := title;
                new_content := content;
                new_category := category;
                new_embedding := embedding;
                new_metadata :=
                  Some {[ "research_query" := default "" (researchQuery a);
                          "cycle_count" := pretty (cycleCount a) ]} |} with
     | None => throw "Failed to create long-term memory"
     | Some memory => ret (ltm_id memory)
     end)
    (fun e => throw e).

Definition searchLongTermMemory (text : string) (limit : option Z)
  : AgentM (list MemoryHit) :=
  let limit := default 5 limit in
  a <- this ;;
  try_catch
    (queryEmbedding <- generateEmbedding env text ;;
     let results :=
       longTermMemoryDb_search env queryEmbedding
         {| so_agentId := Some (id a); so_threshold := Some (7 # 10);
            so_limit := Some limit |} in
     ret (map (fun r => {| title := hit_title r; content := hit_content r;
                           similarity := hit_similarity r |}) results))
    (fun e => throw e).

End WithServices.

(** *** Tasks

    A call of an asynchronous method is a task of the agent.  A step of
    the model runs one task from the [await] it is suspended at to its
    next [await]; between two steps any other task may run. *)

(** A new task; its number is answered. *)
Definition spawn (t : Task) : AgentM nat :=
  a <- this ;;
  update (set_tasks (tasks a ++ [t])) ;;;
  ret (length (tasks a)).

(** Task [n] has reached [t]. *)
Definition reach (n : nat) (t : Task) : AgentM unit :=
  update (fun a => set_tasks (<[n := t]> (tasks a)) a).

(** Calling the resolver of a pause promise lets the task that awaits it
    go on: [continue] in [cycleLoop], [break] in the message loop. *)
Definition wake (n : nat) (a : Agent) : Agent :=
  match tasks a !! n with
  | Some (loop_at awaiting_resume) =>
      set_tasks (<[n := loop_at at_while]> (tasks a)) a
  | Some (loop_at (awaiting_resume_in_stream sleepRequested)) =>
      set_tasks (<[n := loop_at (stream_closed sleepRequested)]> (tasks a)) a
  | _ => a
  end.

(** [clearTimeout]: a timer that has not fired will never fire. *)
Definition clearTimeout (n : nat) (a : Agent) : Agent :=
  match tasks a !! n with
  | Some (loop_at (awaiting_sleep scheduled)) =>
      set_tasks (<[n := loop_at (awaiting_sleep cleared)]> (tasks a)) a
  | _ => a
  end.

(** *** [cycleLoop()] and [runCycle()] *)

(** The prompt of one cycle. *)
Definition cyclePrompt (a : Agent) : string :=
  let researchContext :=
    match js_or (researchQuery a) None with
    | Some q =>
        nl +:+ nl +:+ "Research Query: " +:+ dq +:+ q +:+ dq +:+ nl +:+
        "Your goal is to act as a project manager: break down this research query into focused sub-tasks, spawn sub-agents to research each sub-task in parallel, monitor their progress, read their reports when complete, and synthesize all findings into a comprehensive final report."
    | None => ""
    end in
  "Cycle " +:+ pretty (cycleCount a) +:+
  ": Act as a project manager for research. Review your memory and the research query. Break down the research into focused sub-tasks, spawn sub-agents to handle each sub-task in parallel, monitor their progress, read their reports when complete, and synthesize all findings into a comprehensive final report."
  +:+ researchContext.

(** What a task is resumed with; only the loop reads it. *)
Inductive LoopInput :=
  | turn                          (* the awaited call is done *)
  | delivers (message : SDKMessage)
  | ends
  | throws (message : string).

(** [cycleLoop] from the test of its [while], run by task [n] up to the
    first [await]: the loop ends, waits for [resume()], or enters
    [runCycle] (whose own test of [shouldStop] follows the one of the
    [while] at once). *)
Definition enter (n : nat) : AgentM unit :=
  a <- this ;;
  if shouldStop a then
    update (set_status stopped) ;;;
    reach n (loop_at loop_returned)
  else if isPaused a then
    update (set_pauseResolve (Some n)) ;;;
    reach n (loop_at awaiting_resume)
  else
    update (set_status running) ;;;
    w <- in_world get ;;
    update (set_cycleCount (S (cycleCount a))) ;;;
    update (set_lastCycleAt (Some (now w))) ;;;
    reach n (loop_at building_cycle).

(** [this.currentQuery.interrupt()] inside [runCycle]: with no query in
    the field the call is a TypeError, which the [catch] of [runCycle]
    passes on after clearing the field. *)
Definition interrupt_or_fail (n : nat) (k : AgentM unit) : AgentM unit :=
  a <- this ;;
  match currentQuery a with
  | Some _ => interrupt ;;; k
  | None =>
      update (set_currentQuery None) ;;;
      reach n (loop_at
        (loop_threw "Cannot read properties of undefined (reading 'interrupt')"))
  end.

(** The body of the message loop of [runCycle]. *)
Definition on_message (n : nat) (message : SDKMessage) (sleepRequested : bool)
  : AgentM unit :=
  a <- this ;;
  if shouldStop a then
    interrupt_or_fail n (reach n (loop_at (stream_closed sleepRequested)))
  else if isPaused a then
    interrupt_or_fail n (reach n (loop_at (pausing_in_stream sleepRequested)))
  else
    match message with
    | result subtype _ _ =>
        if String.eqb subtype "success"
        then reach n (loop_at (closing_result sleepRequested))
        else ret tt
    | _ => ret tt
    end.

(** After the message loop: sleep if it was asked for, then clean up. *)
Definition after_stream (n : nat) (sleepRequested : bool) : AgentM unit :=
  a <- this ;;
  w <- in_world get ;;
  match sleepUntil a with
  | Some deadline =>
      if sleepRequested then
        let sleepDuration := deadline - getTime (now w) in
        if 0 <? sleepDuration then
          update (set_status sleeping) ;;;
          update (set_sleepTimeout (Some n)) ;;;
          reach n (loop_at (awaiting_sleep scheduled))
        else
          update (set_sleepUntil None) ;;;
          update (set_currentQuery None) ;;;
          reach n (loop_at leaving_cycle)
      else
        update (set_currentQuery None) ;;;
        reach n (loop_at leaving_cycle)
  | None =>
      update (set_currentQuery None) ;;;
      reach n (loop_at leaving_cycle)
  end.

(** Task [n], a loop suspended at [point], goes on. *)
Definition loop_resumed (n : nat) (point : LoopPoint) (input : LoopInput)
  : AgentM unit :=
  a <- this ;;
  match point with
  | at_while => enter n
  | building_cycle =>
      match input with
      | throws e => reach n (loop_at (loop_threw e))
      | _ =>
          update (set_currentQuery (Some (query (cyclePrompt a)))) ;;;
          reach n (loop_at (awaiting_message false))
      end
  | awaiting_message sleepRequested =>
      match input with
      | delivers message => on_message n message sleepRequested
      | ends => reach n (loop_at (stream_closed sleepRequested))
      | throws e =>
          update (set_currentQuery None) ;;;
          reach n (loop_at (loop_threw e))
      | turn => ret tt
      end
  | closing_result sleepRequested =>
      reach n (loop_at (awaiting_message
                          match sleepUntil a with
                          | Some _ => true
                          | None => sleepRequested
                          end))
  | pausing_in_stream sleepRequested =>
      update (set_pauseResolve (Some n)) ;;;
      reach n (loop_at (awaiting_resume_in_stream sleepRequested))
  | stream_closed sleepRequested => after_stream n sleepRequested
  | slept =>
      update (set_sleepUntil None) ;;;
      update (set_currentQuery None) ;;;
      reach n (loop_at leaving_cycle)
  | leaving_cycle =>
      match sleepUntil a with
      | None => if shouldStop a then enter n else reach n (loop_at awaiting_delay)
      | Some _ => enter n
      end
  | awaiting_delay => enter n
  | awaiting_resume | awaiting_resume_in_stream _ | awaiting_sleep _
  | loop_returned | loop_threw _ => ret tt
  end.

(** The timer of task [n] fires: its callback clears the deadline and
    resolves the promise [runCycle] awaits. *)
Definition timer_fired (n : nat) : AgentM unit :=
  a <- this ;;
  match tasks a !! n with
  | Some (loop_at (awaiting_sleep scheduled)) =>
      update (set_sleepUntil None) ;;;
      reach n (loop_at slept)
  | _ => ret tt
  end.

(** *** [start()] *)

(** [this.cycleLoopPromise = this.cycleLoop()]: the new loop runs to its
    first [await] inside the call. *)
Definition launch : AgentM unit :=
  n <- spawn (loop_at at_while) ;;
  enter n ;;;
  update (set_cycleLoopPromise (Some n)).

(** From "Initialize memory file if it doesn't exist" on. *)
Definition start_memory (n : nat) : AgentM unit :=
  a <- this ;;
  present <- in_world (existsSync (memoryPath a)) ;;
  if negb present then reach n (start_at reading_memory)
  else launch ;;; reach n (start_at start_returned).

Definition start : AgentM unit :=
  a <- this ;;
  if negb (bool_decide (status a = stopped)) then
    throw ("Agent " +:+ id a +:+ " is already running")
  else
    update (set_shouldStop false) ;;;
    update (set_isPaused false) ;;;
    update (set_status running) ;;;
    _ <- spawn (start_at creating_trace) ;;
    ret tt.

(** Task [n], a [start()] call suspended at [point], goes on. *)
Definition start_resumed (n : nat) (point : StartPoint) : AgentM unit :=
  a <- this ;;
  match point with
  | creating_trace =>
      try_catch
        (t <- in_world (createTrace (id a) "agent_run"
                (Some {[ "instructions" := instructions a;
                         "research_query" := default "" (researchQuery a);
                         "memory_path" := memoryPath a;
                         "results_path" := default "" (resultsPath a) ]})) ;;
         update (set_traceId (Some t)) ;;;
         present <- in_world (existsSync (Path.join [memoryPath a; ".."])) ;;
         if negb present then reach n (start_at making_directory)
         else start_memory n)
        (fun e => reach n (start_at (start_threw e)))
  | making_directory =>
      in_world (mkdir (Path.join [memoryPath a; ".."])) ;;;
      start_memory n
  | reading_memory =>
      defaultMemory <- in_world (readMemory (memoryPath a) (id a)
                                   (instructions a) (createdAt a)) ;;
      reach n (start_at (writing_memory defaultMemory))
  | writing_memory defaultMemory =>
      in_world (writeMemory (memoryPath a) defaultMemory (id a)) ;;;
      launch ;;;
      reach n (start_at start_returned)
  | start_returned | start_threw _ => ret tt
  end.

(** *** [pause()] and [resume()] *)

(** "Clear sleep timeout if sleeping" *)
Definition pause_rest (n : nat) : AgentM unit :=
  a <- this ;;
  match sleepTimeout a with
  | Some timer =>
      update (clearTimeout timer) ;;;
      update (set_sleepTimeout None) ;;;
      update (set_sleepUntil None)
  | None => ret tt
  end ;;;
  reach n (pause_at pause_returned).

Definition pause : AgentM unit :=
  a <- this ;;
  if bool_decide (status a = stopped) then
    throw ("Agent " +:+ id a +:+ " is not running")
  else if isPaused a then ret tt
  else
    update (set_isPaused true) ;;;
    update (set_status paused) ;;;
    n <- spawn (pause_at pause_interrupting) ;;
    match currentQuery a with
    | Some _ => interrupt
    | None => pause_rest n
    end.

Definition pause_resumed (n : nat) (point : PausePoint) : AgentM unit :=
  match point with
  | pause_interrupting => pause_rest n
  | pause_returned => ret tt
  end.

Definition resume : AgentM unit :=
  a <- this ;;
  if negb (isPaused a) then ret tt
  else
    update (set_isPaused false) ;;;
    update (set_status running) ;;;
    match pauseResolve a with
    | Some waiting =>
        update (wake waiting) ;;;
        update (set_pauseResolve None)
    | None => ret tt
    end.

(** *** [stop()] *)

(** [for (const subAgent of this.subAgents.values()) await subAgent.stop()] *)
Definition stop_subAgents : AgentM unit :=
  fun s =>
    let stopped_all :=
      map_fold (fun sid runner (acc : gmap string SubAgentRunner * World) =>
                  let after := snd (SubAgent.stop (runner, acc.2)) in
                  (<[sid := after.1]> acc.1, after.2))
               (∅, snd s) (subAgents (fst s)) in
    (Returned tt, (set_subAgents stopped_all.1 (fst s), stopped_all.2)).

(** The end of [stop()]. *)
Definition stop_end (n : nat) : AgentM unit :=
  update (set_status stopped) ;;;
  reach n (stop_at stop_returned).

(** "End trace" *)
Definition stop_trace (n : nat) : AgentM unit :=
  a <- this ;;
  match js_or (traceId a) None with
  | Some t => reach n (stop_at (ending_trace t))
  | None => stop_end n
  end.

(** From [this.subAgents.clear()] to [await this.cycleLoopPromise]. *)
Definition stop_rest (n : nat) : AgentM unit :=
  update (set_subAgents ∅) ;;;
  a <- this ;;
  match sleepTimeout a with
  | Some timer =>
      update (clearTimeout timer) ;;;
      update (set_sleepTimeout None)
  | None => ret tt
  end ;;;
  match pauseResolve a with
  | Some waiting =>
      update (wake waiting) ;;;
      update (set_pauseResolve None)
  | None => ret tt
  end ;;;
  match cycleLoopPromise a with
  | Some loop => reach n (stop_at (awaiting_loop loop))
  | None => stop_trace n
  end.

(** The loop over the sub-agents, which awaits the [stop()] of each of
    them; one suspension stands for these awaits. *)
Definition stop_children (n : nat) : AgentM unit :=
  a <- this ;;
  stop_subAgents ;;;
  match size (subAgents a) with
  | O => stop_rest n
  | S _ => reach n (stop_at stopping_subAgents)
  end.

Definition stop : AgentM unit :=
  a <- this ;;
  if bool_decide (status a = stopped) then ret tt
  else
    update (set_shouldStop true) ;;;
    update (set_isPaused false) ;;;
    n <- spawn (stop_at stop_interrupting) ;;
    match currentQuery a with
    | Some _ => interrupt
    | None => stop_children n
    end.

(** Task [n], a [stop()] call suspended at [point], goes on; at
    [await this.cycleLoopPromise] it does so when that promise is
    settled, and throws what the loop threw. *)
Definition stop_resumed (n : nat) (point : StopPoint) : AgentM unit :=
  a <- this ;;
  match point with
  | stop_interrupting => stop_children n
  | stopping_subAgents => stop_rest n
  | awaiting_loop loop =>
      match tasks a !! loop with
      | Some (loop_at loop_returned) => stop_trace n
      | Some (loop_at (loop_threw e)) => reach n (stop_at (stop_threw e))
      | _ => ret tt
      end
  | ending_trace t =>
      in_world (endTrace t st_completed None) ;;;
      update (set_traceId None) ;;;
      stop_end n
  | stop_returned | stop_threw _ => ret tt
  end.

(** *** Everything that can happen to an agent *)

Inductive Event :=
  | call_start
  | call_pause
  | call_resume
  | call_stop
  | call_handleSleep (durationSeconds : Z)
  | task_resumes (n : nat) (input : LoopInput)
  | timer_fires (n : nat)
  | clock_shows (d : Date).

Definition task_resumed (n : nat) (input : LoopInput) : AgentM unit :=
  a <- this ;;
  match tasks a !! n with
  | Some (loop_at point) => loop_resumed n point input
  | Some (start_at point) => start_resumed n point
  | Some (stop_at point) => stop_resumed n point
  | Some (pause_at point) => pause_resumed n point
  | None => ret tt
  end.

Definition happens (e : Event) : AgentM unit :=
  match e with
  | call_start => start
  | call_pause => pause
  | call_resume => resume
  | call_stop => stop
  | call_handleSleep durationSeconds => handleSleep durationSeconds
  | task_resumes n input => task_resumed n input
  | timer_fires n => timer_fired n
  | clock_shows d => in_world (modify (set_now d))
  end.

(** The state after an event, whether the call returned or threw. *)
Definition after (e : Event) (s : Agent * World) : Agent * World := snd (happens e s).

Definition after_all (events : list Event) (s : Agent * World) : Agent * World :=
  fold_left (fun s e => after e s) events s.



End Agent.

(** ** Vocabulary of the statements *)

Module Observe.
Import SubAgent.

(** Two worlds that differ at most in the trace store, in the ambient
    trace context and in the directories made. *)
Definition traces_only (w w' : World) : Prop :=
  now w' = now w /\ files w' = files w /\ writes w' = writes w /\
  interrupts w' = interrupts w.

Definition is_saveReport (block : ContentBlock) : bool :=
  match block with
  | tool_use _ name _ => String.eqb name "saveReport"
  | _ => false
  end.

(** The message carries a tool call named saveReport. *)
Definition invokes_saveReport (message : SDKMessage) : bool :=
  match message with
  | assistant (Some content) => existsb is_saveReport content
  | _ => false
  end.

(** Events other than a throwing stream and a call of [stop()]. *)
Definition quiet (e : EngineEvent) : bool :=
  match e with
  | raises _ | stop_called => false
  | _ => true
  end.

(** The stream throws. *)
Definition raising (e : EngineEvent) : bool :=
  match e with
  | raises _ => true
  | _ => false
  end.

(** The messages the stream delivers, in order. *)
Fixpoint messages (events : list EngineEvent) : list SDKMessage :=
  match events with
  | [] => []
  | yields message :: rest => message :: messages rest
  | _ :: rest => messages rest
  end.

(** What a dispatched message does to the runner: only a result message
    changes it. *)
Definition verdict (message : SDKMessage) (saved : bool) (d : Date)
    (r : SubAgentRunner) : SubAgentRunner :=
  match message with
  | result subtype errors _ =>
      if String.eqb subtype "success" then
        if saved then set_completedAt d (set_status completed r)
        else set_error "Report not saved" (set_status failed r)
      else
        set_error match errors with
                  | Some (e :: _) => e
                  | _ => "Unknown error"
                  end (set_status failed r)
  | _ => r
  end.

(** The runner that [stop()] leaves behind. *)
Definition halted (r : SubAgentRunner) : SubAgentRunner :=
  let r1 := match currentQuery r with
            | Some _ => set_currentQuery None r
            | None => r
            end in
  if bool_decide (status r1 = researching)
  then set_error "Interrupted" (set_status failed r1)
  else r1.

(** The world after [if (!existsSync(dir)) await mkdir(dir, ...)]. *)
Definition prepared (dir : string) (w : World) : World :=
  if bool_decide (is_Some (files w !! dir)) then w else snd (Fs.mkdir dir w).

(** The world the saveReport handler leaves behind. *)
Definition saved (r : SubAgentRunner) (content : string) (w : World) : World :=
  let ready := prepared (Path.dirname (reportPath r)) w in
  match Fs.refusal ready (reportPath r) with
  | Some _ => ready
  | None =>
      let text :=
        toWellFormed (reportHeader r (toISOString (now w)) +:+ content +:+ nl) in
      set_files (<[reportPath r := text]> (files ready))
        ((reportPath r, text) :: writes ready) ready
  end.

(** The calls of the saveReport handler among the events. *)
Fixpoint calls (events : list EngineEvent) : nat :=
  match events with
  | [] => 0
  | calls_saveReport _ :: rest => S (calls rest)
  | _ :: rest => calls rest
  end.

(** The files after the writes of a journal, newest first. *)
Definition replay (added : list (string * string)) (f : gmap string string)
  : gmap string string :=
  foldr (fun entry acc => <[entry.1 := entry.2]> acc) f added.

(** From [w] to [w'] at most [n] files were written, all of them at the
    report path of [r]. *)
Definition reported (r : SubAgentRunner) (n : nat) (w w' : World) : Prop :=
  exists added,
    writes w' = (added ++ writes w)%list
    /\ files w' = replay added (files w)
    /\ Forall (fun entry => entry.1 = reportPath r) added
    /\ (length added <= n)%nat.

Definition is_result (message : SDKMessage) : bool :=
  match message with
  | result _ _ _ => true
  | _ => false
  end.

(** The trace store is well-formed: a row is stored under its own id, a
    span belongs to a stored trace, and its parent, if it has one, is a
    stored span. *)
Definition store_ok (w : World) : Prop :=
  (forall k row, traces w !! k = Some row -> trace_id row = k)
  /\ (forall k row, spans w !! k = Some row ->
        span_id row = k
        /\ is_Some (traces w !! span_trace_id row)
        /\ forall p, span_parent_span_id row = Some p ->
             is_Some (spans w !! p)).

(** No row of [w] is missing from [w']. *)
Definition store_grows (w w' : World) : Prop :=
  (forall k, is_Some (traces w !! k) -> is_Some (traces w' !! k))
  /\ (forall k, is_Some (spans w !! k) -> is_Some (spans w' !! k)).

(** A task that only its own next step can move: it awaits neither a
    pause promise nor a sleep timer that can still fire. *)
Definition passive (t : Agent.Task) : bool :=
  match t with
  | Agent.loop_at Agent.awaiting_resume
  | Agent.loop_at (Agent.awaiting_resume_in_stream _)
  | Agent.loop_at (Agent.awaiting_sleep Agent.scheduled) => false
  | _ => true
  end.

(** A piece of a method that leaves task [n] where it is. *)
Definition keeps {A} (n : nat) (t : Agent.Task) (m : Agent.AgentM A) : Prop :=
  forall (a : Agent.Agent) (w : World),
    Agent.tasks a !! n = Some t -> Agent.tasks (m (a, w)).2.1 !! n = Some t.


(** The local variables at the start of the message loop. *)
Definition fresh : Locals :=
  {| reportSaved := false; messageCount := 0; toolSpans := [] |}.

(** The runner when [run()] has created its query. *)
Definition querying (r : SubAgentRunner) : SubAgentRunner :=
  set_currentQuery (Some (query (taskPrompt r))) (set_status researching r).

End Observe.

(** ** Sample values *)

Module Sample.

Definition epoch : Date := {| getTime := 0; toISOString := "1970-01-01T00:00:00.000Z" |}.

(** A world with no file, no directory but the working directory, no
    trace and no active trace context. *)
Definition empty_world : World :=
  {| now := epoch; files := ∅; dirs := ∅; denied := ∅; writes := [];
     dbFault := false; traces := ∅; spans := ∅; rowSeq := 0;
     currentContext := None; interrupts := 0 |}.


Definition runner : SubAgent.SubAgentRunner :=
  SubAgent.new "agent-1" "find recent results" "results/sub-agents/agent-1/sub-1.md"
    "sub-1" epoch.

Definition agent : Agent.Agent :=
  Agent.new "agent-1" "research" "memory/agent-1.md" None None epoch.


(** The empty world after [createTrace], and after a [startSpan] in
    that trace. *)
Definition traced : World :=
  (Tracing.createTrace "agent-1" "agent_run" None empty_world).2.



(** An embedding of the right length. *)
Definition embedding : list LongTermMemory.number := replicate 384 (0 # 1).

(** The embedding model works and the vector store refuses every request. *)
Definition store_down : LongTermMemory.Services :=
  {| LongTermMemory.pipeline := fun _ => Returned embedding;
     LongTermMemory.insert_memory := fun _ =>
       {| LongTermMemory.data := None;
          LongTermMemory.error := Some "connection refused" |};
     LongTermMemory.match_long_term_memories := fun _ _ _ _ =>
       {| LongTermMemory.data := None;
          LongTermMemory.error := Some "connection refused" |} |}.

(** The embedding model works; the vector store refuses the requests made
    for agent-1 and answers all others. *)
Definition one_agent_down : LongTermMemory.Services :=
  {| LongTermMemory.pipeline := fun _ => Returned embedding;
     LongTermMemory.insert_memory := fun row =>
       if String.eqb (LongTermMemory.new_agent_id row) "agent-1"
       then {| LongTermMemory.data := None;
               LongTermMemory.error := Some "row level security" |}
       else {| LongTermMemory.data := None; LongTermMemory.error := None |};
     LongTermMemory.match_long_term_memories := fun _ _ _ filter =>
       if bool_decide (filter = Some "agent-1")
       then {| LongTermMemory.data := None;
               LongTermMemory.error := Some "row level security" |}
       else {| LongTermMemory.data := Some []; LongTermMemory.error := None |} |}.

(** The embedding model cannot be loaded. *)
Definition embedder_down : LongTermMemory.Services :=
  {| LongTermMemory.pipeline := fun _ => Thrown "model not available";
     LongTermMemory.insert_memory := fun _ =>
       {| LongTermMemory.data := None; LongTermMemory.error := None |};
     LongTermMemory.match_long_term_memories := fun _ _ _ _ =>
       {| LongTermMemory.data := Some []; LongTermMemory.error := None |} |}.

End Sample.

(** * Properties *)

(** ** Tracing *)

Section TracingFacts.
Import Database Tracing.

Lemma endSpan_empty (status : RunStatus) (options : EndOptions) (w : World) :
  endSpan "" status options w = (Returned tt, w).
Proof. reflexivity. Qed.

(** C8: [endSpan] called with the empty string, or with an id that names
    no span of the store, returns normally and leaves the whole world as
    it was: no row is written and the active trace context is untouched. *)
Theorem endSpan_unknown_is_noop (w : World) (spanId : string)
    (status : RunStatus) (options : EndOptions) :
  spanId = "" \/ spans w !! spanId = None ->
  endSpan spanId status options w = (Returned tt, w).
Proof.
  intros [-> | Hnone]; unfold endSpan.
  - reflexivity.
  - destruct (truthy spanId); [|reflexivity]. cbn.
    unfold bind, spanDb_getById.
    destruct (dbFault w); [reflexivity|].
    rewrite Hnone. reflexivity.
Qed.

Lemma endSpan_unknown_is_noop_witness :
  endSpan "" st_completed
    {| end_output := None; end_error := None; end_metadata := None |}
    Sample.empty_world = (Returned tt, Sample.empty_world)
  /\ endSpan "row-7" st_error
    {| end_output := None; end_error := Some "boom"; end_metadata := None |}
    Sample.empty_world = (Returned tt, Sample.empty_world).
Proof.
  split.
  - apply endSpan_unknown_is_noop. left. reflexivity.
  - apply endSpan_unknown_is_noop. right. reflexivity.
Defined.

(** C9: with no active trace context and no [traceId] option, [startSpan]
    returns the empty string and leaves the world (so the span table)
    unchanged; ending the span it returned is then a no-op as well, so the
    pair returns normally and records nothing. *)
Theorem startSpan_outside_trace (w : World) (name : string) (spanType : SpanType)
    (options : SpanOptions) (status : RunStatus) (endOptions : EndOptions) :
  currentContext w = None ->
  opt_traceId options = None ->
  startSpan name spanType options w = (Returned "", w)
  /\ (spanId <- startSpan name spanType options ;;
      endSpan spanId status endOptions) w = (Returned tt, w).
Proof.
  intros Hctx Hopt.
  assert (Hstart : startSpan name spanType options w = (Returned "", w)).
  { unfold startSpan, bind, getTraceContext. rewrite Hctx, Hopt. reflexivity. }
  split; [exact Hstart|].
  unfold bind at 1. rewrite Hstart.
  apply endSpan_empty.
Qed.

Lemma startSpan_outside_trace_witness :
  startSpan "tool_search" tool no_options Sample.empty_world
    = (Returned "", Sample.empty_world)
  /\ (spanId <- startSpan "tool_search" tool no_options ;;
      endSpan spanId st_completed
        {| end_output := None; end_error := None; end_metadata := None |})
       Sample.empty_world = (Returned tt, Sample.empty_world).
Proof.
  apply startSpan_outside_trace; reflexivity.
Defined.

End TracingFacts.

(** ** Memory files *)

Section MemoryFacts.
Import Fs Memory.












End MemoryFacts.

(** ** Reading a sub-agent report *)

Section ReportFacts.
Import Fs Agent.


End ReportFacts.

(** ** Long-term memory *)

Section LongTermMemoryFacts.
Import LongTermMemory Agent.

Lemma generateEmbedding_throws (env : Services) (text e : string) (s : Agent * World) :
  pipeline env text = Thrown e ->
  generateEmbedding env text s = (Thrown e, s).
Proof.
  intros Hfail. unfold generateEmbedding, try_catch. rewrite Hfail. reflexivity.
Qed.

Lemma generateEmbedding_returns (env : Services) (text : string)
    (v : list number) (s : Agent * World) :
  pipeline env text = Returned v ->
  length v = 384%nat ->
  generateEmbedding env text s = (Returned v, s).
Proof.
  intros Hok Hlen. unfold generateEmbedding, try_catch. rewrite Hok, Hlen.
  reflexivity.
Qed.

(** C5, as the claim states it, fails for [searchLongTermMemory]: when the
    vector store answers the similarity request with an error, the call
    returns the empty list instead of raising. *)
Lemma search_returns_when_store_fails :
  error (match_long_term_memories Sample.store_down Sample.embedding (7 # 10) 5
           (Some "agent-1")) = Some "connection refused"
  /\ searchLongTermMemory Sample.store_down "query" (Some 5)
       (Sample.agent, Sample.empty_world)
     = (Returned [], (Sample.agent, Sample.empty_world)).
Proof. split; reflexivity. Qed.

(** C5, amended: a failure of the embedding service (the model throws, or
    answers a vector that has not 384 entries) makes both
    [saveLongTermMemory] and [searchLongTermMemory] throw that error; when
    the vector store answers the insert of this call with an error, or
    with no row, [saveLongTermMemory] throws; when the vector store
    answers the similarity request of this call with an error,
    [searchLongTermMemory] does not throw: it returns the empty list.
    When both services answer, the calls return the id of the row stored
    and the matches found, in the order of the store. *)
Theorem long_term_memory_failures (env : Services) (a : Agent) (w : World)
    (title text : string) (category : option string) (limit : option Z) :
  let request v :=
    {| new_agent_id := id a;
       new_title := title;
       new_content := text;
       new_category := default "research" category;
       new_embedding := v;
       new_metadata :=
         Some {[ "research_query" := default "" (researchQuery a);
                 "cycle_count" := pretty (cycleCount a) ]} |} in
  let answer v :=
    match_long_term_memories env v (7 # 10) (default 5 limit)
      (js_or (Some (id a)) None) in
  (forall e, pipeline env text = Thrown e ->
     saveLongTermMemory env title text category (a, w) = (Thrown e, (a, w))
     /\ searchLongTermMemory env text limit (a, w) = (Thrown e, (a, w)))
  /\ (forall v, pipeline env text = Returned v -> length v <> 384%nat ->
      let e := "Expected 384 dimensions but got " +:+ pretty (length v)
               +:+ ". This may indicate an issue with the embedding model." in
      saveLongTermMemory env title text category (a, w) = (Thrown e, (a, w))
      /\ searchLongTermMemory env text limit (a, w) = (Thrown e, (a, w)))
  /\ (forall v, pipeline env text = Returned v -> length v = 384%nat ->
      is_Some (error (insert_memory env (request v)))
      \/ data (insert_memory env (request v)) = None ->
      saveLongTermMemory env title text category (a, w)
      = (Thrown "Failed to create long-term memory", (a, w)))
  /\ (forall v row, pipeline env text = Returned v -> length v = 384%nat ->
      error (insert_memory env (request v)) = None ->
      data (insert_memory env (request v)) = Some row ->
      saveLongTermMemory env title text category (a, w)
      = (Returned (ltm_id row), (a, w)))
  /\ (forall v, pipeline env text = Returned v -> length v = 384%nat ->
      is_Some (error (answer v)) ->
      searchLongTermMemory env text limit (a, w) = (Returned [], (a, w)))
  /\ (forall v, pipeline env text = Returned v -> length v = 384%nat ->
      error (answer v) = None ->
      searchLongTermMemory env text limit (a, w)
      = (Returned (map (fun r => {| title := hit_title r; content := hit_content r;
                                    similarity := hit_similarity r |})
                     (default [] (data (answer v)))),
         (a, w))).
Proof.
  cbn zeta. split; [|split; [|split; [|split; [|split]]]].
  - intros e Hfail.
    unfold saveLongTermMemory, searchLongTermMemory, bind, try_catch, this; cbn.
    rewrite !(generateEmbedding_throws env text e) by exact Hfail.
    split; reflexivity.
  - intros v Hok Hlen.
    assert (He : forall s : Agent * World,
              generateEmbedding env text s
              = (Thrown ("Expected 384 dimensions but got " +:+ pretty (length v)
                         +:+ ". This may indicate an issue with the embedding model."),
                 s)).
    { intros s. unfold generateEmbedding, try_catch. rewrite Hok.
      apply Nat.eqb_neq in Hlen. rewrite Hlen. reflexivity. }
    unfold saveLongTermMemory, searchLongTermMemory, bind, try_catch, this; cbn.
    rewrite !He. split; reflexivity.
  - intros v Hok Hlen Hstore.
    unfold saveLongTermMemory, bind, try_catch, this; cbn.
    rewrite (generateEmbedding_returns env text v) by assumption.
    unfold longTermMemoryDb_create.
    destruct Hstore as [[msg Hmsg] | Hnone].
    + match type of Hmsg with error (insert_memory env ?sent) = _ =>
        match goal with |- context [insert_memory env ?row] => change row with sent end
      end.
      rewrite Hmsg. reflexivity.
    + match type of Hnone with data (insert_memory env ?sent) = _ =>
        match goal with |- context [insert_memory env ?row] => change row with sent end
      end.
      rewrite Hnone. destruct (error _); reflexivity.
  - intros v row Hok Hlen Herr Hdata.
    unfold saveLongTermMemory, bind, try_catch, this; cbn.
    rewrite (generateEmbedding_returns env text v) by assumption.
    unfold longTermMemoryDb_create.
    match type of Herr with error (insert_memory env ?sent) = _ =>
      match goal with |- context [insert_memory env ?row] => change row with sent end
    end.
    rewrite Herr, Hdata. reflexivity.
  - intros v Hok Hlen [msg Hmsg].
    unfold searchLongTermMemory, bind, try_catch, this; cbn.
    rewrite (generateEmbedding_returns env text v) by assumption.
    unfold longTermMemoryDb_search. cbn [so_agentId so_threshold so_limit].
    match type of Hmsg with error ?sent = _ =>
      match goal with |- context [error ?asked] => change asked with sent end
    end.
    rewrite Hmsg. reflexivity.
  - intros v Hok Hlen Herr.
    unfold searchLongTermMemory, bind, try_catch, this; cbn.
    rewrite (generateEmbedding_returns env text v) by assumption.
    unfold longTermMemoryDb_search. cbn [so_agentId so_threshold so_limit].
    match type of Herr with error ?sent = _ =>
      match goal with |- context [error ?asked] => change asked with sent end
    end.
    rewrite Herr. reflexivity.
Qed.

Lemma long_term_memory_failures_witness :
  saveLongTermMemory Sample.embedder_down "t" "text" None
    (Sample.agent, Sample.empty_world)
  = (Thrown "model not available", (Sample.agent, Sample.empty_world))
  /\ saveLongTermMemory Sample.store_down "t" "text" None
       (Sample.agent, Sample.empty_world)
     = (Thrown "Failed to create long-term memory", (Sample.agent, Sample.empty_world))
  /\ searchLongTermMemory Sample.store_down "text" None
       (Sample.agent, Sample.empty_world)
     = (Returned [], (Sample.agent, Sample.empty_world))
  /\ searchLongTermMemory Sample.one_agent_down "text" None
       (Sample.agent, Sample.empty_world)
     = (Returned [], (Sample.agent, Sample.empty_world)).
Proof.
  destruct (long_term_memory_failures Sample.embedder_down Sample.agent
              Sample.empty_world "t" "text" None None) as (Hmodel & _).
  destruct (long_term_memory_failures Sample.store_down Sample.agent
              Sample.empty_world "t" "text" None None)
    as (_ & _ & Hinsert & _ & Hsearch & _).
  destruct (long_term_memory_failures Sample.one_agent_down Sample.agent
              Sample.empty_world "t" "text" None None)
    as (_ & _ & _ & _ & Hone & _).
  split; [|split; [|split]].
  - apply Hmodel. reflexivity.
  - apply (Hinsert Sample.embedding); [reflexivity | reflexivity |].
    left. eexists. reflexivity.
  - apply (Hsearch Sample.embedding); [reflexivity | reflexivity |].
    eexists. reflexivity.
  - apply (Hone Sample.embedding); [reflexivity | reflexivity |].
    eexists. reflexivity.
Defined.

End LongTermMemoryFacts.

(** ** The sub-agent runner *)

Section RunnerFacts.
Import Database Tracing Fs SubAgent Observe.

Lemma traces_only_refl (w : World) : traces_only w w.
Proof. repeat split. Qed.

Lemma traces_only_trans (w1 w2 w3 : World) :
  traces_only w1 w2 -> traces_only w2 w3 -> traces_only w1 w3.
Proof.
  unfold traces_only. intros (? & ? & ? & ?) (? & ? & ? & ?).
  repeat split; congruence.
Qed.

Ltac frame_done := eexists; split; [reflexivity | repeat split].

Lemma startSpan_ok (name : string) (ty : SpanType) (o : SpanOptions) (w : World) :
  exists sid w', startSpan name ty o w = (Returned sid, w') /\ traces_only w w'.
Proof.
  unfold startSpan, bind, getTraceContext.
  destruct (js_or _ _) as [t|]; [|eexists; frame_done].
  destruct (truthy t); cbn; [|eexists; frame_done].
  unfold spanDb_create.
  destruct (dbFault w); [eexists; frame_done|].
  destruct (span_keys_ok _ w); cbn; [|eexists; frame_done].
  destruct (currentContext w) as [c|]; [|eexists; frame_done].
  destruct (String.eqb (Ambient.traceId c) t); eexists; frame_done.
Qed.

Lemma endSpan_ok (sid : string) (st : RunStatus) (o : EndOptions) (w : World) :
  exists w', endSpan sid st o w = (Returned tt, w') /\ traces_only w w'.
Proof.
  unfold endSpan.
  destruct (truthy sid); cbn; [|frame_done].
  unfold bind, spanDb_getById.
  destruct (dbFault w) eqn:Hfault; [frame_done|].
  destruct (spans w !! sid) as [row|] eqn:Hrow; [|frame_done].
  unfold get, spanDb_update. rewrite Hfault, Hrow.
  unfold getTraceContext. cbn.
  destruct (currentContext w) as [c|]; [|frame_done].
  destruct (bool_decide _); [|frame_done].
  destruct (js_or _ _); frame_done.
Qed.

Lemma in_world_startSpan (name : string) (ty : SpanType) (o : SpanOptions)
    (r : SubAgentRunner) (w : World) :
  exists sid w',
    in_world (startSpan name ty o) (r, w) = (Returned sid, (r, w'))
    /\ traces_only w w'.
Proof.
  destruct (startSpan_ok name ty o w) as (sid & w' & Heq & Hframe).
  exists sid, w'. split; [|exact Hframe].
  unfold in_world. change (world_of (r, w)) with w. rewrite Heq. reflexivity.
Qed.

Lemma in_world_endSpan (sid : string) (st : RunStatus) (o : EndOptions)
    (r : SubAgentRunner) (w : World) :
  exists w',
    in_world (endSpan sid st o) (r, w) = (Returned tt, (r, w'))
    /\ traces_only w w'.
Proof.
  destruct (endSpan_ok sid st o w) as (w' & Heq & Hframe).
  exists w'. split; [|exact Hframe].
  unfold in_world. change (world_of (r, w)) with w. rewrite Heq. reflexivity.
Qed.

Lemma on_block_ok (llm : string) (block : ContentBlock) (l : Locals)
    (r : SubAgentRunner) (w : World) :
  exists l' w',
    on_block llm block l (r, w) = (Returned l', (r, w'))
    /\ traces_only w w'
    /\ messageCount l' = messageCount l
    /\ reportSaved l' = reportSaved l || is_saveReport block.
Proof.
  destruct block as [text|call_id name input|]; cbn.
  - exists l, w. rewrite orb_false_r. repeat split.
  - unfold bind, this. cbn.
    match goal with |- context [in_world (startSpan ?n ?t ?o) (r, w)] =>
      destruct (in_world_startSpan n t o r w) as (sid & w1 & -> & Hf1) end.
    destruct (String.eqb name "saveReport").
    + match goal with |- context [in_world (endSpan ?i ?t ?o) (r, w1)] =>
        destruct (in_world_endSpan i t o r w1) as (w2 & -> & Hf2) end.
      eexists _, w2. split; [reflexivity|]. cbn. rewrite orb_true_r.
      split; [eapply traces_only_trans; eassumption|]. split; reflexivity.
    + eexists _, w1. split; [reflexivity|]. cbn. rewrite orb_false_r.
      split; [assumption|]. split; reflexivity.
  - exists l, w. rewrite orb_false_r. repeat split.
Qed.

Lemma on_blocks_ok (llm : string) (content : list ContentBlock) :
  forall (l : Locals) (r : SubAgentRunner) (w : World),
  exists l' w',
    on_blocks llm content l (r, w) = (Returned l', (r, w'))
    /\ traces_only w w'
    /\ messageCount l' = messageCount l
    /\ reportSaved l' = reportSaved l || existsb is_saveReport content.
Proof.
  induction content as [|block rest IH]; intros l r w; cbn.
  - exists l, w. rewrite orb_false_r. repeat split.
  - unfold bind.
    destruct (on_block_ok llm block l r w) as (l1 & w1 & -> & Hf1 & Hc1 & Hs1).
    destruct (IH l1 r w1) as (l2 & w2 & -> & Hf2 & Hc2 & Hs2).
    exists l2, w2. split; [reflexivity|].
    split; [eapply traces_only_trans; eassumption|].
    split; [congruence|].
    rewrite Hs2, Hs1. now rewrite orb_assoc.
Qed.

Lemma end_tool_spans_ok (o : EndOptions) (entries : list (string * string)) :
  forall (r : SubAgentRunner) (w : World),
  exists w',
    for_each (fun entry : string * string =>
                in_world (endSpan entry.2 st_completed o)) entries (r, w)
    = (Returned tt, (r, w'))
    /\ traces_only w w'.
Proof.
  induction entries as [|entry rest IH]; intros r w; cbn.
  - exists w. split; [reflexivity | apply traces_only_refl].
  - unfold bind.
    destruct (in_world_endSpan entry.2 st_completed o r w) as (w1 & -> & Hf1).
    destruct (IH r w1) as (w2 & -> & Hf2).
    exists w2. split; [reflexivity | eapply traces_only_trans; eassumption].
Qed.

Lemma ceiling_message :
  "Stopped after " +:+ pretty MAX_MESSAGES +:+ " messages - research taking too long"
  = "Stopped after 20 messages - research taking too long".
Proof. reflexivity. Qed.

Lemma on_message_over (llm : string) (m : SDKMessage) (l : Locals)
    (r : SubAgentRunner) (w : World) :
  (MAX_MESSAGES <= messageCount l)%nat ->
  on_message llm m l (r, w)
  = (Returned ({| reportSaved := reportSaved l;
                  messageCount := S (messageCount l);
                  toolSpans := toolSpans l |}, true),
     (set_error "Stopped after 20 messages - research taking too long"
        (set_status failed r),
      match currentQuery r with
      | Some _ => add_interrupt w
      | None => w
      end)).
Proof.
  intros Hover. unfold on_message. cbn zeta. cbn [messageCount].
  replace (MAX_MESSAGES <? S (messageCount l))%nat with true
    by (symmetry; apply Nat.ltb_lt; lia).
  rewrite ceiling_message.
  unfold bind, this, update, modify, interrupt, in_world. cbn.
  destruct (currentQuery r); reflexivity.
Qed.

Lemma on_message_within (llm : string) (m : SDKMessage) (l : Locals)
    (r : SubAgentRunner) (w : World) :
  (messageCount l < MAX_MESSAGES)%nat ->
  exists l' w',
    on_message llm m l (r, w)
    = (Returned (l', false), (verdict m (reportSaved l) (now w) r, w'))
    /\ traces_only w w'
    /\ messageCount l' = S (messageCount l)
    /\ reportSaved l' = reportSaved l || invokes_saveReport m.
Proof.
  intros Hin. unfold on_message. cbn zeta. cbn [messageCount reportSaved toolSpans].
  replace (MAX_MESSAGES <? S (messageCount l))%nat with false
    by (symmetry; apply Nat.ltb_ge; lia).
  destruct m as [[content|]|subtype errors usage| | |]; cbn [verdict invokes_saveReport].
  - unfold bind.
    match goal with |- context [on_blocks llm content ?l0 (r, w)] =>
      destruct (on_blocks_ok llm content l0 r w) as (l1 & w1 & -> & Hf & Hc & Hs) end.
    exists l1, w1. cbn in Hc, Hs. repeat split; try apply Hf; assumption.
  - eexists _, w. rewrite orb_false_r. split; [reflexivity|]. repeat split.
  - unfold bind at 1.
    match goal with |- context [for_each (fun entry => in_world (endSpan _ _ ?o)) ?es (r, w)] =>
      destruct (end_tool_spans_ok o es r w) as (w1 & -> & Hf1) end.
    rewrite orb_false_r.
    destruct (String.eqb subtype "success").
    + unfold bind at 1.
      match goal with |- context [in_world (endSpan ?i ?t ?o) (r, w1)] =>
        destruct (in_world_endSpan i t o r w1) as (w2 & -> & Hf2) end.
      assert (Hnow : now w2 = now w).
      { destruct Hf1 as (H1 & _), Hf2 as (H2 & _). congruence. }
      destruct (reportSaved l); eexists _, w2;
        (split; [unfold bind, update, modify, in_world, get; cbn; rewrite ?Hnow; reflexivity|]);
        (split; [eapply traces_only_trans; eassumption|]); split; reflexivity.
    + unfold bind at 1.
      match goal with |- context [in_world (endSpan ?i ?t ?o) (r, w1)] =>
        destruct (in_world_endSpan i t o r w1) as (w2 & -> & Hf2) end.
      eexists _, w2.
      split; [reflexivity|].
      (split; [eapply traces_only_trans; eassumption|]); split; reflexivity.
  - eexists _, w. rewrite orb_false_r. split; [reflexivity|]. repeat split.
  - eexists _, w. rewrite orb_false_r. split; [reflexivity|]. repeat split.
  - eexists _, w. rewrite orb_false_r. split; [reflexivity|]. repeat split.
Qed.

Lemma verdict_currentQuery (m : SDKMessage) (saved : bool) (d : Date)
    (r : SubAgentRunner) :
  currentQuery (verdict m saved d r) = currentQuery r.
Proof.
  destruct m as [?|subtype errors ?| | |]; try reflexivity. cbn.
  destruct (String.eqb subtype "success"); [destruct saved|]; reflexivity.
Qed.

Lemma prepared_ok (dir : string) (w : World) : traces_only w (prepared dir w).
Proof. unfold prepared. case_bool_decide; repeat split. Qed.

Lemma run_prepared {X A} (dir : string) (k : Prog (X * World) A) (x : X) (w : World) :
  (present <- in_world (existsSync dir) ;;
   (if negb present then in_world (mkdir dir) else ret tt) ;;; k) (x, w)
  = k (x, prepared dir w).
Proof.
  unfold prepared, bind, in_world, existsSync. cbn [world_of object_has_world snd fst].
  case_bool_decide; reflexivity.
Qed.

Lemma saveReport_effect (content : string) (r : SubAgentRunner) (w : World) :
  saveReport content (r, w)
  = (Returned
       match refusal (prepared (Path.dirname (reportPath r)) w) (reportPath r) with
       | Some e => "Error saving report: " +:+ e
       | None => "Research report has been saved to " +:+ reportPath r
                 +:+ ". Your task is complete."
       end,
     (r, saved r content w)).
Proof.
  unfold saveReport, saved. unfold bind at 1. unfold this at 1. cbn [fst snd].
  unfold try_catch. rewrite run_prepared.
  unfold bind, in_world, get, writeFile, ret.
  cbn [world_of with_world object_has_world fst snd].
  assert (Hnow : now (prepared (Path.dirname (reportPath r)) w) = now w)
    by apply prepared_ok.
  rewrite Hnow.
  destruct (refusal (prepared (Path.dirname (reportPath r)) w) (reportPath r));
    reflexivity.
Qed.

Lemma saved_frame (r : SubAgentRunner) (content : string) (w : World) :
  now (saved r content w) = now w /\ interrupts (saved r content w) = interrupts w.
Proof.
  unfold saved.
  destruct (prepared_ok (Path.dirname (reportPath r)) w) as (Hnow & _ & _ & Hint).
  destruct (refusal _ _); cbn; auto.
Qed.

Lemma for_await_quiet (llm : string) (before : list EngineEvent) :
  forall (l : Locals) (r : SubAgentRunner) (w : World),
  forallb quiet before = true ->
  (messageCount l + length (messages before) <= MAX_MESSAGES)%nat ->
  exists l' r' w',
    (forall rest,
       for_await llm (before ++ rest) l (r, w) = for_await llm rest l' (r', w'))
    /\ messageCount l' = (messageCount l + length (messages before))%nat
    /\ reportSaved l' = reportSaved l || existsb invokes_saveReport (messages before)
    /\ currentQuery r' = currentQuery r
    /\ interrupts w' = interrupts w.
Proof.
  induction before as [|e before IH]; intros l r w Hquiet Hcount.
  - exists l, r, w. cbn. rewrite Nat.add_0_r, orb_false_r. repeat split.
  - cbn in Hquiet. apply andb_prop in Hquiet as [He Hquiet].
    destruct e as [m|e|content| |d]; try discriminate He; cbn in Hcount;
      cbn [app for_await messages length existsb].
    + destruct (on_message_within llm m l r w) as (l1 & w1 & Hstep & Hf & Hc & Hs);
        [lia|].
      destruct (IH l1 (verdict m (reportSaved l) (now w) r) w1 Hquiet)
        as (l2 & r2 & w2 & Heq & Hc2 & Hs2 & Hq2 & Hi2); [lia|].
      exists l2, r2, w2. split.
      { intros rest. unfold bind at 1. rewrite Hstep. cbn [snd fst]. apply Heq. }
      split; [lia|]. split; [rewrite Hs2, Hs; now rewrite orb_assoc|].
      split; [rewrite Hq2; apply verdict_currentQuery|].
      destruct Hf as (_ & _ & _ & Hi). congruence.
    + destruct (IH l r (saved r content w) Hquiet Hcount)
        as (l2 & r2 & w2 & Heq & Hc2 & Hs2 & Hq2 & Hi2).
      exists l2, r2, w2. split.
      { intros rest. unfold bind at 1. rewrite saveReport_effect. apply Heq. }
      repeat split; try assumption.
      rewrite Hi2. apply saved_frame.
    + destruct (IH l r (set_now d w) Hquiet Hcount)
        as (l2 & r2 & w2 & Heq & Hc2 & Hs2 & Hq2 & Hi2).
      exists l2, r2, w2. split.
      { intros rest. apply Heq. }
      repeat split; assumption.
Qed.

Lemma run_from_loop (r : SubAgentRunner) (w : World) :
  status r = pending ->
  exists llm w1,
    traces_only w w1 /\
    forall events,
      match for_await llm events fresh (querying r, w1) with
      | (Returned _, (r', w')) =>
          exists w'',
            run events (r, w) = (Returned tt, (set_currentQuery None r', w''))
            /\ traces_only w' w''
      | (Thrown e, (r', w')) =>
          exists w'',
            run events (r, w)
            = (Thrown e,
               (set_currentQuery None (set_error e (set_status failed r')), w''))
            /\ traces_only w' w''
      end.
Proof.
  intros Hpending.
  destruct (in_world_startSpan ("sub_agent_" +:+ String.substring 0 50 (task r))
              sub_agent
              {| opt_traceId := traceId r; opt_parentSpanId := parentSpanId r;
                 opt_input := Some {[ "task" := task r; "sub_agent_id" := id r;
                                      "parent_id" := parentId r ]};
                 opt_metadata := Some {[ "report_path" := reportPath r ]} |}
              (set_status researching r) w)
    as (sub & wa & Hsub & Hfa).
  assert (exists wb, traces_only wa wb /\
            (match js_or (traceId r) None with
             | Some t => in_world (Tracing.setTraceContext
                  (Some {| Ambient.traceId := t; Ambient.currentSpanId := Some sub |}))
             | None => ret tt
             end) (set_status researching r, wa)
            = (Returned tt, (set_status researching r, wb))) as (wb & Hfb & Hctx).
  { destruct (js_or (traceId r) None); eexists; (split; [|reflexivity]); repeat split. }
  destruct (in_world_startSpan "sub_agent_llm_query" llm
              {| opt_traceId := traceId r; opt_parentSpanId := Some sub;
                 opt_input := Some {[ "task" := task r;
                                      "prompt" := String.substring 0 500 (taskPrompt r) ]};
                 opt_metadata := None |} (set_status researching r)
              (prepared (Path.dirname (reportPath r)) wb))
    as (llmId & wc & Hllm & Hfc).
  pose proof (prepared_ok (Path.dirname (reportPath r)) wb) as Hfp.
  exists llmId, wc.
  split; [eapply traces_only_trans; [eassumption|eapply traces_only_trans;
            [eassumption|eapply traces_only_trans; eassumption]]|].
  intros events.
  destruct (for_await llmId events fresh (querying r, wc)) as [[l'|e] [r' w']] eqn:Hloop;
    unfold run;
    unfold bind at 1; unfold this at 1; cbn [fst snd];
    rewrite Hpending; rewrite bool_decide_eq_true_2 by reflexivity; cbn [negb];
    unfold bind at 1; unfold update at 1, modify at 1; cbn [fst snd];
    unfold withSpan at 1; unfold bind at 1; rewrite Hsub;
    unfold try_catch at 1; unfold bind at 1; unfold bind at 1; rewrite Hctx;
    rewrite run_prepared;
    unfold bind at 1; unfold withSpan at 1; unfold bind at 1; rewrite Hllm;
    unfold try_catch at 1; unfold bind at 1; unfold try_catch at 1;
    unfold bind at 1; unfold update at 1, modify at 1; cbn [fst snd];
    unfold bind at 1;
    change (set_currentQuery (Some (query (taskPrompt r))) (set_status researching r))
      with (querying r);
    change {| reportSaved := false; messageCount := 0; toolSpans := [] |} with fresh;
    rewrite Hloop.
  - unfold update at 1, modify at 1. cbn [fst snd].
    unfold bind at 1.
    match goal with |- context [in_world (endSpan ?i ?t ?o) (?r0, w')] =>
      destruct (in_world_endSpan i t o r0 w') as (w2 & -> & Hf2) end.
    unfold ret at 1. unfold bind at 1. unfold this at 1. cbn [fst snd].
    match goal with |- context [in_world (endSpan ?i ?t ?o) (?r0, w2)] =>
      destruct (in_world_endSpan i t o r0 w2) as (w3 & -> & Hf3) end.
    unfold bind at 1.
    match goal with |- context [in_world (endSpan ?i ?t ?o) (?r0, w3)] =>
      destruct (in_world_endSpan i t o r0 w3) as (w4 & -> & Hf4) end.
    exists w4. split; [reflexivity|].
    eapply traces_only_trans; [eassumption|]. eapply traces_only_trans; eassumption.
  - unfold bind at 1. unfold update at 1, modify at 1. cbn [fst snd].
    unfold bind at 1. unfold update at 1, modify at 1. cbn [fst snd].
    unfold bind at 1. unfold update at 1, modify at 1. cbn [fst snd].
    unfold throw at 1.
    unfold bind at 1.
    match goal with |- context [in_world (endSpan ?i ?t ?o) (?r0, w')] =>
      destruct (in_world_endSpan i t o r0 w') as (w2 & -> & Hf2) end.
    unfold throw at 1.
    unfold bind at 1.
    match goal with |- context [in_world (endSpan ?i ?t ?o) (?r0, w2)] =>
      destruct (in_world_endSpan i t o r0 w2) as (w3 & -> & Hf3) end.
    exists w3. split; [reflexivity|].
    eapply traces_only_trans; eassumption.
Qed.

Lemma stop_effect (r : SubAgentRunner) (w : World) :
  SubAgent.stop (r, w)
  = (Returned tt,
     (halted r,
      match currentQuery r with
      | Some _ => add_interrupt w
      | None => w
      end)).
Proof.
  unfold SubAgent.stop, halted, bind, this, update, modify, interrupt, in_world.
  cbn. destruct (currentQuery r); cbn; destruct (status r); reflexivity.
Qed.

Lemma stop_subAgents_effect (a : Agent.Agent) (w : World) :
  exists w',
    Agent.stop_subAgents (a, w)
    = (Returned tt, (Agent.set_subAgents (halted <$> Agent.subAgents a) a, w')).
Proof.
  unfold Agent.stop_subAgents. cbn [fst snd].
  match goal with |- context [map_fold ?f ?b ?m] =>
    assert (Hfold : (map_fold f b m).1 = halted <$> m) end.
  { apply (map_fold_weak_ind
             (fun (acc : gmap string SubAgentRunner * World) m => acc.1 = halted <$> m)).
    - cbn. now rewrite fmap_empty.
    - intros sid runner m acc _ IH. cbn [fst snd].
      rewrite stop_effect. cbn [fst snd]. rewrite IH. now rewrite fmap_insert. }
  eexists. rewrite Hfold. reflexivity.
Qed.

(** C10: [stop()] of a runner returns normally; it moves a researching
    runner to failed with error "Interrupted", and leaves status,
    completedAt and error of a pending, completed or failed runner as they
    were.  So the loop of [AgentOrchestrator.stop()] over the sub-agents
    leaves a completed sub-agent completed. *)
Theorem stop_changes_only_researching (r : SubAgentRunner) (w : World) :
  let after := (SubAgent.stop (r, w)).2.1 in
  (SubAgent.stop (r, w)).1 = Returned tt
  /\ (status r = researching ->
      status after = failed /\ error after = Some "Interrupted")
  /\ (status r <> researching ->
      status after = status r
      /\ completedAt after = completedAt r
      /\ error after = error r)
  /\ (forall (a : Agent.Agent) (subAgentId : string),
      Agent.subAgents a !! subAgentId = Some r ->
      status r = completed ->
      exists r',
        Agent.subAgents (Agent.stop_subAgents (a, w)).2.1 !! subAgentId = Some r'
        /\ status r' = completed
        /\ completedAt r' = completedAt r
        /\ error r' = error r).
Proof.
  cbn zeta. rewrite stop_effect. cbn [fst snd].
  assert (Hother : status r <> researching ->
            status (halted r) = status r
            /\ completedAt (halted r) = completedAt r
            /\ error (halted r) = error r).
  { intros Hne. unfold halted.
    destruct (currentQuery r); cbn; rewrite bool_decide_eq_false_2 by exact Hne;
      repeat split. }
  split; [reflexivity|]. split; [|split; [exact Hother|]].
  - intros Hres. unfold halted.
    destruct (currentQuery r); cbn; rewrite Hres; split; reflexivity.
  - intros a sid Hlook Hdone.
    destruct (stop_subAgents_effect a w) as (w' & ->). cbn [fst snd].
    exists (halted r). split.
    + cbn. rewrite lookup_fmap, Hlook. reflexivity.
    + rewrite <- Hdone. apply Hother. rewrite Hdone. discriminate.
Qed.

Lemma stop_changes_only_researching_witness :
  status (SubAgent.stop (querying Sample.runner, Sample.empty_world)).2.1 = failed
  /\ status (SubAgent.stop (set_status completed Sample.runner, Sample.empty_world)).2.1
     = completed.
Proof.
  split.
  - apply (stop_changes_only_researching (querying Sample.runner) Sample.empty_world).
    reflexivity.
  - apply (stop_changes_only_researching (set_status completed Sample.runner)
             Sample.empty_world).
    discriminate.
Defined.

Lemma for_await_at_ceiling (llm : string) (m : SDKMessage) (rest : list EngineEvent)
    (l : Locals) (r : SubAgentRunner) (w : World) :
  (MAX_MESSAGES <= messageCount l)%nat ->
  for_await llm (yields m :: rest) l (r, w)
  = (Returned {| reportSaved := reportSaved l;
                 messageCount := S (messageCount l);
                 toolSpans := toolSpans l |},
     (set_error "Stopped after 20 messages - research taking too long"
        (set_status failed r),
      match currentQuery r with
      | Some _ => add_interrupt w
      | None => w
      end)).
Proof.
  intros Hover. cbn [for_await]. unfold bind at 1.
  rewrite on_message_over by exact Hover. reflexivity.
Qed.

(** C2: when the stream has delivered [MAX_MESSAGES] (20) messages, the
    next message is counted and nothing more: the loop gives the same
    result whatever that message is and whatever would follow it, so no
    message past the ceiling is processed.  [run()] then returns with the
    runner failed, the error naming the ceiling, and one interrupt request
    sent to the query. *)
Theorem message_ceiling (r : SubAgentRunner) (w : World)
    (before rest : list EngineEvent) (m : SDKMessage) :
  status r = pending ->
  forallb quiet before = true ->
  length (messages before) = MAX_MESSAGES ->
  (forall llm s,
     for_await llm (before ++ yields m :: rest) fresh s
     = for_await llm (before ++ [yields other_message]) fresh s)
  /\ (let after := run (before ++ yields m :: rest) (r, w) in
      after.1 = Returned tt
      /\ status after.2.1 = failed
      /\ error after.2.1
         = Some "Stopped after 20 messages - research taking too long"
      /\ interrupts after.2.2 = S (interrupts w)).
Proof.
  intros Hpending Hquiet Hlen. split.
  - intros llm [r0 w0].
    destruct (for_await_quiet llm before fresh r0 w0 Hquiet)
      as (l1 & r1 & w1 & Heq & Hc & _); [cbn; lia|].
    rewrite !Heq. rewrite !for_await_at_ceiling by (rewrite Hc; cbn; lia).
    reflexivity.
  - cbn zeta.
    destruct (run_from_loop r w Hpending) as (llm & wc & Hfc & Hrun).
    specialize (Hrun (before ++ yields m :: rest)%list).
    destruct (for_await_quiet llm before fresh (querying r) wc Hquiet)
      as (l1 & r1 & w1 & Heq & Hc & _ & Hq & Hi); [cbn; lia|].
    rewrite Heq in Hrun.
    rewrite for_await_at_ceiling in Hrun by (rewrite Hc; cbn; lia).
    rewrite Hq in Hrun. cbn [querying set_currentQuery assign currentQuery] in Hrun.
    destruct Hrun as (w2 & -> & Hf2). cbn [fst snd].
    repeat split.
    destruct Hf2 as (_ & _ & _ & ->). cbn. rewrite Hi.
    destruct Hfc as (_ & _ & _ & ->). reflexivity.
Qed.

Lemma message_ceiling_witness :
  let after := run (replicate 20 (yields system) ++ yields stream_event :: [])
                 (Sample.runner, Sample.empty_world) in
  after.1 = Returned tt
  /\ status after.2.1 = failed
  /\ error after.2.1 = Some "Stopped after 20 messages - research taking too long"
  /\ interrupts after.2.2 = 1%nat.
Proof.
  apply (message_ceiling Sample.runner Sample.empty_world
           (replicate 20 (yields system)) [] stream_event); reflexivity.
Defined.

Lemma for_await_prefix (llm : string) (before : list EngineEvent) :
  forall (l : Locals) (r : SubAgentRunner) (w : World),
  existsb raising before = false ->
  (messageCount l + length (messages before) <= MAX_MESSAGES)%nat ->
  exists l' r' w',
    (forall rest,
       for_await llm (before ++ rest) l (r, w) = for_await llm rest l' (r', w'))
    /\ messageCount l' = (messageCount l + length (messages before))%nat
    /\ reportSaved l' = reportSaved l || existsb invokes_saveReport (messages before).
Proof.
  induction before as [|e before IH]; intros l r w Hquiet Hcount.
  - exists l, r, w. cbn. rewrite Nat.add_0_r, orb_false_r. repeat split.
  - cbn in Hquiet. apply orb_false_elim in Hquiet as [He Hquiet].
    destruct e as [m|e|content| |d]; try discriminate He; cbn in Hcount;
      cbn [app for_await messages length existsb].
    + destruct (on_message_within llm m l r w) as (l1 & w1 & Hstep & Hf & Hc & Hs);
        [lia|].
      destruct (IH l1 (verdict m (reportSaved l) (now w) r) w1 Hquiet)
        as (l2 & r2 & w2 & Heq & Hc2 & Hs2); [lia|].
      exists l2, r2, w2. split.
      { intros rest. unfold bind at 1. rewrite Hstep. cbn [snd fst]. apply Heq. }
      split; [lia|]. rewrite Hs2, Hs. now rewrite orb_assoc.
    + destruct (IH l r (saved r content w) Hquiet Hcount)
        as (l2 & r2 & w2 & Heq & Hc2 & Hs2).
      exists l2, r2, w2. split.
      { intros rest. unfold bind at 1. rewrite saveReport_effect. apply Heq. }
      split; assumption.
    + destruct (IH l (halted r)
                  (match currentQuery r with
                   | Some _ => add_interrupt w
                   | None => w
                   end) Hquiet Hcount)
        as (l2 & r2 & w2 & Heq & Hc2 & Hs2).
      exists l2, r2, w2. split.
      { intros rest. unfold bind at 1. rewrite stop_effect. apply Heq. }
      split; assumption.
    + destruct (IH l r (set_now d w) Hquiet Hcount)
        as (l2 & r2 & w2 & Heq & Hc2 & Hs2).
      exists l2, r2, w2. split.
      { intros rest. apply Heq. }
      split; assumption.
Qed.




(** C3 fails on the code: the message loop goes on after a result
    message and writes the status again without looking at it.  A stream
    that continues after its successful result moves the runner from
    completed to failed; a success after a failure, or after [stop()] has
    failed the runner, moves it from failed to completed; and a stream
    that throws after its result overwrites completed with failed. *)
Lemma terminal_status_overwritten :
  let save := yields (assistant (Some [tool_use "call-1" "saveReport" ∅])) in
  let good := yields (result "success" None ∅) in
  let bad := yields (result "error_during_execution" (Some ["boom"]) ∅) in
  let s := (Sample.runner, Sample.empty_world) in
  status (run [save; calls_saveReport "X"; good] s).2.1 = completed
  /\ status (run [save; calls_saveReport "X"; good; bad] s).2.1 = failed
  /\ status (run [bad] s).2.1 = failed
  /\ status (run [bad; save; calls_saveReport "X"; good] s).2.1 = completed
  /\ status (run [save; stop_called] s).2.1 = failed
  /\ status (run [save; stop_called; good] s).2.1 = completed
  /\ (run [save; calls_saveReport "X"; good; raises "exit code 1"] s).2.1
     = set_error "exit code 1"
         (set_status failed (run [save; calls_saveReport "X"; good] s).2.1).
Proof. vm_compute. repeat split. Qed.
End RunnerFacts.

(** ** The agent lifecycle *)

Section AgentFacts.
Import Database Tracing Fs Memory Agent Observe.


































Lemma task_resumed_at (n : nat) (input : LoopInput) (a : Agent) (w : World) :
  task_resumed n input (a, w)
  = match tasks a !! n with
    | Some (loop_at point) => loop_resumed n point input (a, w)
    | Some (start_at point) => start_resumed n point (a, w)
    | Some (stop_at point) => stop_resumed n point (a, w)
    | Some (pause_at point) => pause_resumed n point (a, w)
    | None => (Returned tt, (a, w))
    end.
Proof.
  unfold task_resumed, bind, this. cbn [fst snd].
  destruct (tasks a !! n) as [[]|]; reflexivity.
Qed.






End AgentFacts.

(** ** The tracing calls *)

Section TracingEffects.
Import Database Ambient Tracing Observe.

Lemma in_world_run {X A} (m : M A) (x : X) (w : World) :
  in_world m (x, w) = ((m w).1, (x, (m w).2)).
Proof. unfold in_world. cbn. destruct (m w). reflexivity. Qed.

Lemma createTrace_returns (agentId name : string) (metadata : option Json) (w : World) :
  dbFault w = false ->
  exists w', createTrace agentId name metadata w = (Returned (uuid (rowSeq w)), w').
Proof.
  intros Hfault. unfold createTrace, bind, traceDb_create. rewrite Hfault.
  eexists. reflexivity.
Qed.

Lemma createTrace_refused (agentId name : string) (metadata : option Json) (w : World) :
  dbFault w = true ->
  createTrace agentId name metadata w = (Thrown "Failed to create trace", w).
Proof.
  intros Hfault. unfold createTrace, bind, traceDb_create. rewrite Hfault. reflexivity.
Qed.

(** What [endTrace] does to the context and to the row of its trace. *)
Lemma endTrace_closes (t : string) (status : RunStatus) (error : option string)
    (w : World) :
  exists w',
    endTrace t status error w = (Returned tt, w')
    /\ traces_only w w'
    /\ (forall c, currentContext w' = Some c -> traceId c <> t)
    /\ (forall row, dbFault w = false -> traces w !! t = Some row ->
        exists row',
          traces w' !! t = Some row'
          /\ trace_status row' = status
          /\ trace_end_time row' = Some (now w)
          /\ trace_error row' = js_or error None).
Proof.
  unfold endTrace, bind, get, traceDb_update, getTraceContext.
  destruct (dbFault w) eqn:Hfault.
  - destruct (currentContext w) as [c|] eqn:Hctx;
      [destruct (String.eqb_spec (traceId c) t) as [Hsame|Hdiff]|];
      eexists; (split; [reflexivity|]); cbn; rewrite ?Hctx;
      (split; [repeat split|]);
      (split; [intros c' Hc'; congruence | intros row Hup; discriminate Hup]).
  - destruct (traces w !! t) as [row|] eqn:Hrow; cbn;
      (destruct (currentContext w) as [c|] eqn:Hctx;
       [destruct (String.eqb_spec (traceId c) t) as [Hsame|Hdiff]|]);
      eexists; (split; [reflexivity|]); cbn; rewrite ?Hctx;
      (split; [repeat split|]);
      (split; [intros c' Hc'; congruence|]);
      intros row0 _ Hrow0; try discriminate Hrow0;
      rewrite lookup_insert_eq; eexists; (split; [reflexivity|]); repeat split.
Qed.

(** X1: [createTrace] throws "Failed to create trace" and changes nothing
    when the store refuses the row; otherwise it returns the id of a new
    trace row (running, started now, not ended, of the given agent and
    name), stores that row, leaves the spans alone and makes the new
    trace the ambient context, with no current span. *)
Theorem createTrace_cases (agentId name : string) (metadata : option Json) (w : World) :
  if dbFault w
  then createTrace agentId name metadata w = (Thrown "Failed to create trace", w)
  else
    let t := uuid (rowSeq w) in
    exists w' row,
      createTrace agentId name metadata w = (Returned t, w')
      /\ currentContext w' = Some {| traceId := t; currentSpanId := None |}
      /\ traces w' = <[t := row]> (traces w)
      /\ trace_id row = t
      /\ trace_agent_id row = agentId
      /\ trace_name row = name
      /\ trace_status row = st_running
      /\ trace_start_time row = now w
      /\ trace_end_time row = None
      /\ spans w' = spans w
      /\ traces_only w w'.
Proof.
  unfold createTrace, bind, traceDb_create.
  destruct (dbFault w); [reflexivity|].
  cbn. eexists _, _. split; [reflexivity|]. cbn. repeat split.
Qed.

(** X2: [endTrace] never throws.  It leaves every other trace and all
    spans as they are; a stored trace gets the given status, the present
    time as its end and the error (none for an empty text), unless the
    store refuses the update; and the ambient context is dropped exactly
    when it is the context of that trace. *)
Theorem endTrace_effect (t : string) (status : RunStatus) (error : option string)
    (w : World) :
  exists w',
    endTrace t status error w = (Returned tt, w')
    /\ traces_only w w'
    /\ spans w' = spans w
    /\ currentContext w' =
         match currentContext w with
         | Some c => if String.eqb (traceId c) t then None else Some c
         | None => None
         end
    /\ (forall other, other <> t -> traces w' !! other = traces w !! other)
    /\ match traces w !! t with
       | Some row =>
           if dbFault w then traces w' !! t = Some row
           else exists row',
             traces w' !! t = Some row'
             /\ trace_status row' = status
             /\ trace_end_time row' = Some (now w)
             /\ trace_error row' = js_or error None
             /\ trace_id row' = trace_id row
             /\ trace_agent_id row' = trace_agent_id row
             /\ trace_name row' = trace_name row
             /\ trace_start_time row' = trace_start_time row
       | None => traces w' !! t = None
       end.
Proof.
  unfold endTrace, bind, get, traceDb_update, getTraceContext.
  destruct (dbFault w) eqn:Hfault.
  - destruct (traces w !! t) as [row|] eqn:Hrow;
      (destruct (currentContext w) as [c|] eqn:Hctx;
       [destruct (String.eqb (traceId c) t) eqn:Hsame|]);
      eexists; (split; [reflexivity|]); cbn; rewrite ?Hctx, ?Hrow;
      repeat split; auto.
  - destruct (traces w !! t) as [row|] eqn:Hrow; cbn;
      (destruct (currentContext w) as [c|] eqn:Hctx;
       [destruct (String.eqb (traceId c) t) eqn:Hsame|]);
      eexists; (split; [reflexivity|]); cbn; rewrite ?Hctx, ?Hrow;
      (split; [repeat split|]); (split; [reflexivity|]); (split; [reflexivity|]);
      try (split; [intros other Hne; now rewrite lookup_insert_ne by congruence|]);
      try (split; [intros other Hne; reflexivity|]);
      try (rewrite lookup_insert_eq; eexists; split; [reflexivity|]; cbn; repeat split);
      try assumption; try reflexivity.
Qed.

Lemma js_or_idem (o : option string) : js_or (js_or o None) None = js_or o None.
Proof.
  destruct o as [p|]; [|reflexivity]. cbn.
  destruct (truthy p) eqn:Hp; cbn; [now rewrite Hp|reflexivity].
Qed.

(** X3: with a working store, a trace id that is not empty and is stored,
    and a stored parent (if there is one), [startSpan] returns the id of
    a new span row of that trace: running, started now, with the given
    name and type and with the parent taken from the options or else
    from the ambient context; the new span becomes the current span when
    the ambient context is of that trace. *)
Theorem startSpan_effect (name : string) (spanType : SpanType) (options : SpanOptions)
    (t : string) (w : World) :
  let context := currentContext w in
  let parent :=
    js_or (js_or (opt_parentSpanId options) (context ≫= currentSpanId)) None in
  let sid := uuid (rowSeq w) in
  dbFault w = false ->
  js_or (opt_traceId options) (traceId <$> context) = Some t ->
  t <> "" ->
  is_Some (traces w !! t) ->
  (forall p, parent = Some p -> is_Some (spans w !! p)) ->
  exists w' row,
    startSpan name spanType options w = (Returned sid, w')
    /\ spans w' = <[sid := row]> (spans w)
    /\ span_id row = sid
    /\ span_trace_id row = t
    /\ span_parent_span_id row = parent
    /\ span_name row = name
    /\ span_type row = spanType
    /\ span_status row = st_running
    /\ span_start_time row = now w
    /\ span_end_time row = None
    /\ currentContext w' =
         match context with
         | Some c =>
             if String.eqb (traceId c) t
             then Some {| traceId := t; currentSpanId := Some sid |}
             else Some c
         | None => None
         end
    /\ traces w' = traces w
    /\ dbFault w' = false
    /\ traces_only w w'.
Proof.
  intros context parent sid Hfault Htrace Hne Hstored Hparent.
  assert (Htruthy : truthy t = true).
  { unfold truthy. destruct (String.eqb_spec t ""); [contradiction|reflexivity]. }
  unfold startSpan, bind, getTraceContext. fold context. rewrite Htrace, Htruthy.
  cbn [negb]. fold parent.
  unfold spanDb_create. rewrite Hfault.
  replace (span_keys_ok _ w) with true.
  2:{ symmetry. unfold span_keys_ok. cbn [si_trace_id si_parent_span_id].
      rewrite bool_decide_eq_true_2 by exact Hstored. cbn [andb].
      destruct parent as [p|] eqn:Hp; [|reflexivity].
      apply bool_decide_eq_true_2. now apply Hparent. }
  cbn [negb]. cbn [span_id].
  destruct context as [c|] eqn:Hctx.
  - destruct (String.eqb_spec (traceId c) t) as [Heq|Hdiff].
    + eexists _, _. split; [reflexivity|]. cbn. rewrite Heq. repeat split; assumption.
    + eexists _, _. split; [reflexivity|]. cbn. repeat split; assumption.
  - eexists _, _. split; [reflexivity|]. cbn. repeat split; assumption.
Qed.


(** The two halves of the nesting of spans. *)
Lemma startSpan_opens (name : string) (spanType : SpanType) (options : SpanOptions)
    (c : TraceContext) (w : World) :
  dbFault w = false ->
  currentContext w = Some c ->
  traceId c <> "" ->
  is_Some (traces w !! traceId c) ->
  (forall p, js_or (currentSpanId c) None = Some p -> is_Some (spans w !! p)) ->
  opt_traceId options = None ->
  opt_parentSpanId options = None ->
  exists w' row,
    startSpan name spanType options w = (Returned (uuid (rowSeq w)), w')
    /\ spans w' = <[uuid (rowSeq w) := row]> (spans w)
    /\ span_trace_id row = traceId c
    /\ span_parent_span_id row = js_or (currentSpanId c) None
    /\ currentContext w'
       = Some {| traceId := traceId c; currentSpanId := Some (uuid (rowSeq w)) |}
    /\ dbFault w' = false.
Proof.
  intros Hfault Hctx Hne Hstored Hparent Hopt1 Hopt2.
  assert (Htruthy : truthy (traceId c) = true).
  { unfold truthy. destruct (String.eqb_spec (traceId c) ""); [contradiction|reflexivity]. }
  unfold startSpan, bind, getTraceContext. rewrite Hctx, Hopt1, Hopt2.
  cbn [js_or fmap option_fmap option_map mbind option_bind]. rewrite Htruthy.
  cbn [negb].
  unfold spanDb_create. rewrite Hfault.
  replace (span_keys_ok _ w) with true.
  2:{ symmetry. unfold span_keys_ok. cbn [si_trace_id si_parent_span_id].
      rewrite bool_decide_eq_true_2 by exact Hstored. cbn [andb].
      destruct (js_or (currentSpanId c) None) as [p|] eqn:Hp; [|reflexivity].
      apply bool_decide_eq_true_2. now apply Hparent. }
  cbn [negb]. cbn [span_id]. rewrite ?Hctx, String.eqb_refl.
  eexists _, _. split; [reflexivity|]. cbn.
  repeat split. exact Hfault.
Qed.

Lemma endSpan_closes (spanId : string) (status : RunStatus) (options : EndOptions)
    (span : SpanRow) (c : TraceContext) (w : World) :
  dbFault w = false ->
  spanId <> "" ->
  spans w !! spanId = Some span ->
  currentContext w = Some c ->
  currentSpanId c = Some spanId ->
  exists w' row,
    endSpan spanId status options w = (Returned tt, w')
    /\ spans w' = <[spanId := row]> (spans w)
    /\ span_status row = status
    /\ span_trace_id row = span_trace_id span
    /\ span_parent_span_id row = span_parent_span_id span
    /\ currentContext w'
       = Some {| traceId := traceId c;
                 currentSpanId := js_or (span_parent_span_id span) None |}.
Proof.
  intros Hfault Hne Hrow Hctx Hcurrent.
  assert (Htruthy : truthy spanId = true).
  { unfold truthy. destruct (String.eqb_spec spanId ""); [contradiction|reflexivity]. }
  unfold endSpan. rewrite Htruthy. cbn [negb].
  unfold bind, spanDb_getById. rewrite Hfault, Hrow.
  unfold get, spanDb_update. rewrite Hfault, Hrow.
  unfold getTraceContext. cbn [currentContext set_spans]. rewrite Hctx.
  rewrite bool_decide_eq_true_2 by exact Hcurrent.
  destruct (js_or (span_parent_span_id span) None) as [p|] eqn:Hp;
    eexists _, _; (split; [reflexivity|]); cbn; repeat split.
Qed.

(** X5: spans nest.  A span started from the ambient context of a stored
    trace becomes the current span, is a child of the span that was
    current, and when it is ended the context is again the one from
    before the start; no other span is touched. *)
Theorem span_nesting (name : string) (spanType : SpanType) (options : SpanOptions)
    (c : TraceContext) (status : RunStatus) (endOptions : EndOptions) (w : World) :
  dbFault w = false ->
  currentContext w = Some c ->
  traceId c <> "" ->
  is_Some (traces w !! traceId c) ->
  (forall p, js_or (currentSpanId c) None = Some p -> is_Some (spans w !! p)) ->
  opt_traceId options = None ->
  opt_parentSpanId options = None ->
  exists sid w1 w2 row,
    startSpan name spanType options w = (Returned sid, w1)
    /\ currentContext w1 = Some {| traceId := traceId c; currentSpanId := Some sid |}
    /\ endSpan sid status endOptions w1 = (Returned tt, w2)
    /\ currentContext w2
       = Some {| traceId := traceId c;
                 currentSpanId := js_or (currentSpanId c) None |}
    /\ spans w2 !! sid = Some row
    /\ span_status row = status
    /\ span_trace_id row = traceId c
    /\ span_parent_span_id row = js_or (currentSpanId c) None
    /\ (forall other, other <> sid -> spans w2 !! other = spans w !! other).
Proof.
  intros Hfault Hctx Hne Hstored Hparent Hopt1 Hopt2.
  destruct (startSpan_opens name spanType options c w Hfault Hctx Hne Hstored Hparent
              Hopt1 Hopt2)
    as (w1 & row & Hstart & Hspans & Htrace & Hpar & Hctx1 & Hfault1).
  destruct (endSpan_closes (uuid (rowSeq w)) status endOptions row
              {| traceId := traceId c; currentSpanId := Some (uuid (rowSeq w)) |}
              w1 Hfault1)
    as (w2 & row' & Hend & Hspans2 & Hst & Htrace2 & Hpar2 & Hctx2).
  { discriminate. }
  { rewrite Hspans. apply lookup_insert_eq. }
  { exact Hctx1. }
  { reflexivity. }
  cbn [traceId] in Hctx2. rewrite Hpar, js_or_idem in Hctx2.
  exists (uuid (rowSeq w)), w1, w2, row'.
  split; [exact Hstart|]. split; [exact Hctx1|]. split; [exact Hend|].
  split; [exact Hctx2|].
  split; [rewrite Hspans2; apply lookup_insert_eq|].
  split; [exact Hst|]. split; [congruence|]. split; [congruence|].
  intros other Hother. rewrite Hspans2, Hspans.
  now rewrite !lookup_insert_ne by congruence.
Qed.

(** X6: [withSpan] is transparent: it returns what [fn] returns and
    throws what [fn] throws, leaves the object as [fn] leaves it, and
    itself changes nothing but the trace store and the ambient
    context. *)
Theorem withSpan_transparent {X T} `{Captured T} (name : string) (spanType : SpanType)
    (fn : string -> Prog (X * World) T) (options : SpanOptions) (x : X) (w : World) :
  exists spanId w1 w2,
    startSpan name spanType options w = (Returned spanId, w1)
    /\ traces_only w w1
    /\ withSpan name spanType fn options (x, w)
       = ((fn spanId (x, w1)).1, ((fn spanId (x, w1)).2.1, w2))
    /\ traces_only (fn spanId (x, w1)).2.2 w2.
Proof.
  destruct (startSpan_ok name spanType options w) as (spanId & w1 & Hstart & Hframe1).
  exists spanId, w1.
  unfold withSpan. unfold bind at 1. rewrite in_world_run, Hstart. cbn [fst snd].
  unfold try_catch, bind.
  destruct (fn spanId (x, w1)) as [[result|e] [x' w']]; cbn [fst snd].
  - match goal with |- context [in_world (endSpan ?i ?t ?o) (x', w')] =>
      destruct (endSpan_ok i t o w') as (w2 & Hend & Hframe2);
      rewrite (in_world_run (endSpan i t o)), Hend end.
    exists w2. repeat split; try apply Hframe1; apply Hframe2.
  - match goal with |- context [in_world (endSpan ?i ?t ?o) (x', w')] =>
      destruct (endSpan_ok i t o w') as (w2 & Hend & Hframe2);
      rewrite (in_world_run (endSpan i t o)), Hend end.
    exists w2. repeat split; try apply Hframe1; apply Hframe2.
Qed.

(** X7: when the store is down, or when there is neither an ambient
    trace nor a trace id in the options, [withSpan] is [fn] called with
    the empty span id: nothing is recorded. *)
Theorem withSpan_untraced {X T} `{Captured T} (name : string) (spanType : SpanType)
    (fn : string -> Prog (X * World) T) (options : SpanOptions) (x : X) (w : World) :
  dbFault w = true \/ (currentContext w = None /\ opt_traceId options = None) ->
  withSpan name spanType fn options (x, w) = fn "" (x, w).
Proof.
  intros Hcase.
  assert (Hstart : startSpan name spanType options w = (Returned "", w)).
  { unfold startSpan, bind, getTraceContext.
    destruct Hcase as [Hfault | [Hctx Hopt]].
    - destruct (js_or _ _) as [t|]; [|reflexivity].
      destruct (truthy t); [|reflexivity]. cbn.
      unfold spanDb_create. rewrite Hfault. reflexivity.
    - rewrite Hctx, Hopt. reflexivity. }
  unfold withSpan. unfold bind at 1. rewrite in_world_run, Hstart. cbn [fst snd].
  unfold try_catch, bind.
  destruct (fn "" (x, w)) as [[result|e] [x' w']]; reflexivity.
Qed.

(** X8: [withTrace] throws "Failed to create trace" without calling
    [fn] when the trace cannot be created; otherwise it returns or throws
    what [fn] does, the trace is then no longer the ambient one, and its
    row, if the store still works, is ended at the time [fn] finished,
    completed after a return and in error, with the message, after a
    throw. *)
Theorem withTrace_cases {X T} (agentId traceName : string)
    (fn : string -> Prog (X * World) T) (metadata : option Json) (x : X) (w : World) :
  if dbFault w
  then withTrace agentId traceName fn metadata (x, w)
       = (Thrown "Failed to create trace", (x, w))
  else
    let t := uuid (rowSeq w) in
    exists w1 w2,
      createTrace agentId traceName metadata w = (Returned t, w1)
      /\ withTrace agentId traceName fn metadata (x, w)
         = ((fn t (x, w1)).1, ((fn t (x, w1)).2.1, w2))
      /\ traces_only (fn t (x, w1)).2.2 w2
      /\ (forall c, currentContext w2 = Some c -> traceId c <> t)
      /\ (forall row,
            dbFault (fn t (x, w1)).2.2 = false ->
            traces (fn t (x, w1)).2.2 !! t = Some row ->
            exists row',
              traces w2 !! t = Some row'
              /\ trace_end_time row' = Some (now (fn t (x, w1)).2.2)
              /\ match (fn t (x, w1)).1 with
                 | Returned _ => trace_status row' = st_completed /\ trace_error row' = None
                 | Thrown e =>
                     trace_status row' = st_error
                     /\ trace_error row' = js_or (Some e) None
                 end).
Proof.
  destruct (dbFault w) eqn:Hfault.
  - unfold withTrace. unfold bind at 1.
    rewrite in_world_run, createTrace_refused by exact Hfault. reflexivity.
  - cbn zeta.
    destruct (createTrace_returns agentId traceName metadata w Hfault) as (w1 & Hcreate).
    exists w1.
    unfold withTrace. unfold bind at 1. rewrite in_world_run, Hcreate. cbn [fst snd].
    unfold try_catch, bind.
    destruct (fn (uuid (rowSeq w)) (x, w1)) as [[result|e] [x' w']]; cbn [fst snd].
    + destruct (endTrace_closes (uuid (rowSeq w)) st_completed None w')
        as (w2 & Hend & Hframe & Hctx & Hrow).
      rewrite in_world_run, Hend. cbn [fst snd]. exists w2.
      split; [reflexivity|]. split; [reflexivity|]. split; [exact Hframe|].
      split; [exact Hctx|].
      intros row Hup Hstored.
      destruct (Hrow row Hup Hstored) as (row' & ? & ? & ? & ?). exists row'. auto.
    + destruct (endTrace_closes (uuid (rowSeq w)) st_error (Some e) w')
        as (w2 & Hend & Hframe & Hctx & Hrow).
      rewrite in_world_run, Hend. cbn [fst snd]. exists w2.
      split; [reflexivity|]. split; [reflexivity|]. split; [exact Hframe|].
      split; [exact Hctx|].
      intros row Hup Hstored.
      destruct (Hrow row Hup Hstored) as (row' & ? & ? & ? & ?). exists row'. auto.
Qed.

Lemma store_grows_refl (w : World) : store_grows w w.
Proof. split; auto. Qed.

Lemma store_ok_trace (k : string) (row : TraceRow) (n : nat) (w : World) :
  store_ok w ->
  trace_id row = k ->
  store_ok (set_traces (<[k := row]> (traces w)) n w)
  /\ store_grows w (set_traces (<[k := row]> (traces w)) n w).
Proof.
  intros [Htraces Hspans] Hid. split; [split|split]; cbn.
  - intros k' row' Hlook. apply lookup_insert_Some in Hlook as [[<- <-]|[_ Hlook]];
      [exact Hid | now apply Htraces].
  - intros k' row' Hlook. destruct (Hspans k' row' Hlook) as (? & Htrace & ?).
    split; [assumption|]. split; [|assumption].
    apply lookup_insert_is_Some. destruct (decide (k = span_trace_id row')); auto.
  - intros k' Hsome. apply lookup_insert_is_Some.
    destruct (decide (k = k')); auto.
  - auto.
Qed.

Lemma store_ok_span (k : string) (row : SpanRow) (n : nat) (w : World) :
  store_ok w ->
  span_id row = k ->
  is_Some (traces w !! span_trace_id row) ->
  (forall p, span_parent_span_id row = Some p -> is_Some (spans w !! p)) ->
  store_ok (set_spans (<[k := row]> (spans w)) n w)
  /\ store_grows w (set_spans (<[k := row]> (spans w)) n w).
Proof.
  intros [Htraces Hspans] Hid Htrace Hparent.
  assert (Hkeep : forall p, is_Some (spans w !! p) -> is_Some (<[k := row]> (spans w) !! p)).
  { intros p Hsome. apply lookup_insert_is_Some. destruct (decide (k = p)); auto. }
  split; [split|split]; cbn.
  - exact Htraces.
  - intros k' row' Hlook. apply lookup_insert_Some in Hlook as [[<- <-]|[_ Hlook]].
    + split; [exact Hid|]. split; [exact Htrace|]. intros p Hp. apply Hkeep. now apply Hparent.
    + destruct (Hspans k' row' Hlook) as (? & ? & Hp).
      split; [assumption|]. split; [assumption|]. intros p Hpar. apply Hkeep. now apply Hp.
  - auto.
  - exact Hkeep.
Qed.

(** X9: the four tracing calls keep the store well-formed (every row is
    stored under its own id, every span belongs to a stored trace and
    its parent, if any, is a stored span) and never remove a row. *)
Theorem tracing_keeps_store (w : World) :
  store_ok w ->
  (forall agentId name metadata,
     let w' := (createTrace agentId name metadata w).2 in
     store_ok w' /\ store_grows w w')
  /\ (forall t status error,
        let w' := (endTrace t status error w).2 in
        store_ok w' /\ store_grows w w')
  /\ (forall name spanType options,
        let w' := (startSpan name spanType options w).2 in
        store_ok w' /\ store_grows w w')
  /\ (forall spanId status options,
        let w' := (endSpan spanId status options w).2 in
        store_ok w' /\ store_grows w w').
Proof.
  intros Hok. pose proof (store_grows_refl w) as Hrefl.
  split; [|split; [|split]].
  - intros agentId name metadata. cbn zeta.
    unfold createTrace, bind, traceDb_create.
    destruct (dbFault w); [split; assumption|]. cbn [snd].
    unfold Tracing.setTraceContext, modify. cbn [snd].
    match goal with |- context [set_traces (<[?k := ?row]> _) ?n w] =>
      destruct (store_ok_trace k row n w Hok eq_refl) as [Hok' Hgrow] end.
    split; assumption.
  - intros t status error. cbn zeta.
    unfold endTrace, bind, get, traceDb_update, getTraceContext.
    destruct (dbFault w).
    + destruct (currentContext w) as [c|]; [|split; assumption].
      destruct (String.eqb (traceId c) t); split; assumption.
    + destruct (traces w !! t) as [row|] eqn:Hrow; cbn.
      * match goal with |- context [set_traces (<[?k := ?r]> _) ?n w] =>
          destruct (store_ok_trace k r n w Hok) as [Hok' Hgrow] end.
        { cbn. now apply Hok. }
        destruct (currentContext w) as [c|]; [|split; assumption].
        destruct (String.eqb (traceId c) t); split; assumption.
      * destruct (currentContext w) as [c|]; [|split; assumption].
        destruct (String.eqb (traceId c) t); split; assumption.
  - intros name spanType options. cbn zeta.
    unfold startSpan, bind, getTraceContext.
    destruct (js_or _ _) as [t|]; [|split; assumption].
    destruct (truthy t); [|split; assumption]. cbn [negb].
    unfold spanDb_create.
    destruct (dbFault w); [split; assumption|].
    destruct (span_keys_ok _ w) eqn:Hkeys; [|split; assumption]. cbn [negb].
    apply andb_prop in Hkeys as [Htrace Hparent].
    apply bool_decide_eq_true_1 in Htrace.
    match goal with |- context [set_spans (<[?k := ?r]> _) ?n w] =>
      destruct (store_ok_span k r n w Hok eq_refl) as [Hok' Hgrow] end.
    { exact Htrace. }
    { cbn [span_parent_span_id si_parent_span_id] in *. intros p Hp.
      rewrite Hp in Hparent. now apply bool_decide_eq_true_1 in Hparent. }
    cbn [currentContext set_spans].
    destruct (currentContext w) as [c|]; [|split; assumption].
    destruct (String.eqb (traceId c) t); split; assumption.
  - intros spanId status options. cbn zeta.
    unfold endSpan. destruct (truthy spanId); [|split; assumption]. cbn [negb].
    unfold bind, spanDb_getById.
    destruct (dbFault w) eqn:Hfault; [split; assumption|].
    destruct (spans w !! spanId) as [row|] eqn:Hrow; [|split; assumption].
    unfold get, spanDb_update. rewrite Hfault, Hrow.
    destruct Hok as [Htraces Hspans].
    destruct (Hspans spanId row Hrow) as (Hid & Htrace & Hparent).
    match goal with |- context [set_spans (<[?k := ?r]> _) ?n w] =>
      destruct (store_ok_span k r n w (conj Htraces Hspans)) as [Hok' Hgrow] end.
    { exact Hid. }
    { exact Htrace. }
    { exact Hparent. }
    unfold getTraceContext. cbn [currentContext set_spans].
    destruct (currentContext w) as [c|]; [|split; assumption].
    destruct (bool_decide _); [|split; assumption].
    destruct (js_or (span_parent_span_id row) None); split; assumption.
Qed.

Lemma startSpan_effect_witness :
  exists w',
    startSpan "cycle_1" cycle no_options Sample.traced = (Returned "row-1", w')
    /\ currentContext w'
       = Some {| traceId := "row-0"; currentSpanId := Some "row-1" |}.
Proof.
  destruct (startSpan_effect "cycle_1" cycle no_options "row-0" Sample.traced)
    as (w' & row & Hstart & _ & _ & _ & _ & _ & _ & _ & _ & _ & Hctx & _).
  - reflexivity.
  - reflexivity.
  - discriminate.
  - eexists. reflexivity.
  - intros p Hp. vm_compute in Hp. discriminate Hp.
  - exists w'. split; [exact Hstart | exact Hctx].
Defined.


Lemma span_nesting_witness :
  exists sid w1 w2,
    startSpan "cycle_1" cycle no_options Sample.traced = (Returned sid, w1)
    /\ endSpan sid st_error
         {| end_output := None; end_error := Some "boom"; end_metadata := None |} w1
       = (Returned tt, w2)
    /\ currentContext w2 = currentContext Sample.traced.
Proof.
  destruct (span_nesting "cycle_1" cycle no_options
              {| traceId := "row-0"; currentSpanId := None |} st_error
              {| end_output := None; end_error := Some "boom"; end_metadata := None |}
              Sample.traced)
    as (sid & w1 & w2 & row & Hstart & _ & Hend & Hctx & _).
  - reflexivity.
  - reflexivity.
  - discriminate.
  - eexists. reflexivity.
  - intros p Hp. discriminate Hp.
  - reflexivity.
  - reflexivity.
  - exists sid, w1, w2. split; [exact Hstart|]. split; [exact Hend | exact Hctx].
Defined.

Lemma withSpan_untraced_witness :
  withSpan "cycle_1" cycle (fun _ => ret tt) no_options
    (Sample.agent, Sample.empty_world)
  = (Returned tt, (Sample.agent, Sample.empty_world)).
Proof.
  apply (withSpan_untraced "cycle_1" cycle (fun _ => ret tt) no_options
           Sample.agent Sample.empty_world).
  right. split; reflexivity.
Defined.

Lemma tracing_keeps_store_witness :
  store_ok (startSpan "cycle_1" cycle no_options Sample.traced).2
  /\ store_grows Sample.traced (startSpan "cycle_1" cycle no_options Sample.traced).2.
Proof.
  assert (Hok : store_ok Sample.empty_world).
  { split; intros k row Hrow; vm_compute in Hrow; discriminate Hrow. }
  destruct (tracing_keeps_store Sample.empty_world Hok) as (Hcreate & _).
  destruct (Hcreate "agent-1" "agent_run" None) as [Hok1 _].
  destruct (tracing_keeps_store Sample.traced Hok1) as (_ & _ & Hstart & _).
  apply (Hstart "cycle_1" cycle no_options).
Defined.

End TracingEffects.

(** ** More about the sub-agent runner *)

Section RunnerEffects.
Import Database Tracing Fs SubAgent Observe.

Lemma reported_refl (r : SubAgentRunner) (n : nat) (w : World) : reported r n w w.
Proof. exists []. cbn. repeat split; [constructor | lia]. Qed.

Lemma reported_same (r r' : SubAgentRunner) (n : nat) (w0 w w' w1 : World) :
  reportPath r' = reportPath r ->
  writes w = writes w0 -> files w = files w0 ->
  writes w1 = writes w' -> files w1 = files w' ->
  reported r' n w w' -> reported r n w0 w1.
Proof.
  intros Hpath Hw Hf Hw' Hf' (added & Ha & Hb & Hc & Hd).
  exists added. rewrite Hw', Hf', <- Hw, <- Hf, <- Hpath. auto.
Qed.

Lemma reported_write (r : SubAgentRunner) (n : nat) (text : string) (w w' : World) :
  reported r n
    (set_files (<[reportPath r := text]> (files w)) ((reportPath r, text) :: writes w) w)
    w' ->
  reported r (S n) w w'.
Proof.
  intros (added & Ha & Hb & Hc & Hd). cbn in Ha, Hb.
  exists (added ++ [(reportPath r, text)])%list.
  rewrite <- app_assoc. split; [exact Ha|].
  split; [unfold replay in *; rewrite foldr_app; exact Hb|].
  split; [apply Forall_app; split; [exact Hc | repeat constructor]|].
  rewrite length_app. cbn. lia.
Qed.

Lemma reported_more (r : SubAgentRunner) (n : nat) (w w' : World) :
  reported r n w w' -> reported r (S n) w w'.
Proof. intros (added & ? & ? & ? & ?). exists added. repeat split; auto. Qed.

Lemma reported_saved (r : SubAgentRunner) (n : nat) (content : string) (w w' : World) :
  reported r n (saved r content w) w' -> reported r (S n) w w'.
Proof.
  unfold saved.
  destruct (prepared_ok (Path.dirname (reportPath r)) w) as (_ & Hfiles & Hwrites & _).
  destruct (refusal _ _); intros Hr.
  - apply reported_more. eapply reported_same; [reflexivity| | | | |exact Hr]; auto.
  - eapply reported_write.
    eapply reported_same; [reflexivity| | | | |exact Hr]; cbn;
      rewrite ?Hfiles, ?Hwrites; reflexivity.
Qed.

Lemma verdict_frame (m : SDKMessage) (saved : bool) (d : Date) (r : SubAgentRunner) :
  reportPath (verdict m saved d r) = reportPath r
  /\ id (verdict m saved d r) = id r
  /\ (status r <> pending -> status (verdict m saved d r) <> pending).
Proof.
  destruct m as [?|subtype errors ?| | |]; cbn; auto.
  destruct (String.eqb subtype "success"); [destruct saved|]; cbn;
    repeat split; discriminate.
Qed.

Lemma halted_frame (r : SubAgentRunner) :
  reportPath (halted r) = reportPath r
  /\ id (halted r) = id r
  /\ (status r <> pending -> status (halted r) <> pending).
Proof.
  unfold halted. destruct (currentQuery r); cbn; case_bool_decide; cbn;
    repeat split; auto; discriminate.
Qed.

Lemma for_await_frame (llm : string) (events : list EngineEvent) :
  forall (l : Locals) (r : SubAgentRunner) (w : World),
  reportPath (for_await llm events l (r, w)).2.1 = reportPath r
  /\ id (for_await llm events l (r, w)).2.1 = id r
  /\ (status r <> pending -> status (for_await llm events l (r, w)).2.1 <> pending)
  /\ reported r (calls events) w (for_await llm events l (r, w)).2.2.
Proof.
  induction events as [|e events IH]; intros l r w.
  - cbn. repeat split; auto. apply reported_refl.
  - destruct e as [m|e|content| |d]; cbn [for_await calls].
    + unfold bind at 1 2 3 4.
      destruct (Nat.lt_ge_cases (messageCount l) MAX_MESSAGES) as [Hin|Hover].
      * destruct (on_message_within llm m l r w Hin) as (l1 & w1 & -> & Hf & _).
        cbn [fst snd].
        destruct (verdict_frame m (reportSaved l) (now w) r) as (Hp & Hi & Hs).
        destruct (IH l1 (verdict m (reportSaved l) (now w) r) w1) as (Hp' & Hi' & Hs' & Hr').
        split; [congruence|]. split; [congruence|]. split; [auto|].
        destruct Hf as (_ & Hfiles & Hwrites & _).
        eapply reported_same; [exact Hp| | | | |exact Hr']; auto.
      * rewrite on_message_over by exact Hover. cbn [fst snd].
        cbn. repeat split; [discriminate|].
        destruct (currentQuery r); apply (reported_same r r _ w w w); auto using reported_refl.
    + cbn. repeat split; auto. apply reported_refl.
    + unfold bind at 1 2 3 4. rewrite saveReport_effect.
      match goal with |- context [for_await llm events l (r, ?w1)] =>
        destruct (IH l r w1) as (Hp' & Hi' & Hs' & Hr') end.
      repeat split; auto. eapply reported_saved. exact Hr'.
    + unfold bind at 1 2 3 4. rewrite stop_effect.
      destruct (halted_frame r) as (Hp & Hi & Hs).
      match goal with |- context [for_await llm events l (halted r, ?w1)] =>
        destruct (IH l (halted r) w1) as (Hp' & Hi' & Hs' & Hr') end.
      split; [congruence|]. split; [congruence|]. split; [auto|].
      destruct (currentQuery r); eapply reported_same; try exact Hr'; auto.
    + unfold bind at 1 2 3 4. unfold in_world at 1 2 3 4, modify. cbn [fst snd world_of with_world object_has_world].
      match goal with |- context [for_await llm events l (r, ?w1)] =>
        destruct (IH l r w1) as (Hp' & Hi' & Hs' & Hr') end.
      repeat split; auto.
Qed.

Lemma run_guard (events : list EngineEvent) (r : SubAgentRunner) (w : World) :
  status r <> pending ->
  run events (r, w)
  = (Thrown ("SubAgent " +:+ id r +:+ " is not in pending status"), (r, w)).
Proof.
  intros Hne. unfold run. unfold bind at 1. unfold this at 1. cbn [fst snd].
  rewrite bool_decide_eq_false_2 by exact Hne. reflexivity.
Qed.

Lemma querying_frame (r : SubAgentRunner) :
  reportPath (querying r) = reportPath r
  /\ id (querying r) = id r
  /\ status (querying r) <> pending.
Proof. repeat split. discriminate. Qed.

Lemma run_frame (events : list EngineEvent) (r : SubAgentRunner) (w : World) :
  status r = pending ->
  reportPath (run events (r, w)).2.1 = reportPath r
  /\ id (run events (r, w)).2.1 = id r
  /\ status (run events (r, w)).2.1 <> pending
  /\ currentQuery (run events (r, w)).2.1 = None
  /\ reported r (calls events) w (run events (r, w)).2.2.
Proof.
  intros Hpending.
  destruct (run_from_loop r w Hpending) as (llm & w1 & Hf1 & Hrun).
  specialize (Hrun events).
  destruct (for_await_frame llm events fresh (querying r) w1) as (Hp & Hi & Hs & Hr).
  destruct (querying_frame r) as (Hqp & Hqi & Hqs).
  destruct (for_await llm events fresh (querying r, w1)) as [[l'|e] [r' w']];
    destruct Hrun as (w2 & -> & Hf2); cbn [fst snd] in *;
    cbn [set_currentQuery set_error set_status assign reportPath id status currentQuery].
  - split; [congruence|]. split; [congruence|]. split; [auto|]. split; [reflexivity|].
    destruct Hf1 as (_ & ? & ? & _), Hf2 as (_ & ? & ? & _).
    eapply reported_same; [exact Hqp| | | | |exact Hr]; auto.
  - split; [congruence|]. split; [congruence|]. split; [discriminate|].
    split; [reflexivity|].
    destruct Hf1 as (_ & ? & ? & _), Hf2 as (_ & ? & ? & _).
    eapply reported_same; [exact Hqp| | | | |exact Hr]; auto.
Qed.

(** X10: whatever the stream does, a call of [run()] writes no file but
    the report of its runner, and at most once for each call of the
    saveReport handler. *)
Theorem run_writes_only_report (events : list EngineEvent) (r : SubAgentRunner)
    (w : World) :
  exists added,
    writes (run events (r, w)).2.2 = (added ++ writes w)%list
    /\ files (run events (r, w)).2.2 = replay added (files w)
    /\ Forall (fun entry => entry.1 = reportPath r) added
    /\ (length added <= calls events)%nat.
Proof.
  destruct (decide (status r = pending)) as [Hpending|Hother].
  - apply (run_frame events r w Hpending).
  - rewrite run_guard by exact Hother. apply reported_refl.
Qed.

(** X11: [run()] works once.  On a runner that is not pending it throws
    and changes nothing; on a pending runner it leaves the runner not
    pending, without a current query and with its id and report path
    kept, so that every later call of [run()] is refused. *)
Theorem run_only_once (events : list EngineEvent) (r : SubAgentRunner) (w : World) :
  let refusal := Thrown ("SubAgent " +:+ id r +:+ " is not in pending status") in
  let after := (run events (r, w)).2 in
  (status r <> pending -> run events (r, w) = (refusal, (r, w)))
  /\ (status r = pending ->
      status after.1 <> pending
      /\ currentQuery after.1 = None
      /\ id after.1 = id r
      /\ reportPath after.1 = reportPath r)
  /\ (forall events', run events' after = (refusal, after)).
Proof.
  cbn zeta. split; [apply run_guard|]. split.
  - intros Hpending.
    destruct (run_frame events r w Hpending) as (? & ? & ? & ? & _). auto.
  - intros events'. destruct (decide (status r = pending)) as [Hpending|Hother].
    + destruct (run_frame events r w Hpending) as (_ & Hid & Hst & _).
      destruct (run events (r, w)) as [out [r' w']]. cbn [fst snd] in *.
      rewrite <- Hid. now apply run_guard.
    + rewrite run_guard by exact Hother. cbn [snd]. now apply run_guard.
Qed.

(** X12: when the stream throws before the message ceiling is passed,
    [run()] throws the same error, with the runner failed, the error
    stored and the current query cleared. *)
Theorem stream_failure (r : SubAgentRunner) (w : World)
    (before rest : list EngineEvent) (e : string) :
  status r = pending ->
  existsb raising before = false ->
  (length (messages before) <= MAX_MESSAGES)%nat ->
  let after := run (before ++ raises e :: rest) (r, w) in
  after.1 = Thrown e
  /\ status after.2.1 = failed
  /\ error after.2.1 = Some e
  /\ currentQuery after.2.1 = None.
Proof.
  intros Hpending Hquiet Hlen. cbn zeta.
  destruct (run_from_loop r w Hpending) as (llm & wc & Hfc & Hrun).
  specialize (Hrun (before ++ raises e :: rest)%list).
  destruct (for_await_prefix llm before fresh (querying r) wc Hquiet)
    as (l1 & r1 & w1 & Heq & _); [cbn; lia|].
  rewrite Heq in Hrun. cbn [for_await] in Hrun. unfold throw in Hrun.
  destruct Hrun as (w2 & -> & _). repeat split.
Qed.

(** X13: when the stream ends with a result message inside the ceiling,
    [run()] returns, and the runner is completed exactly when the
    subtype is success and a saveReport tool call was seen before;
    otherwise it is failed, with "Report not saved" for a success and
    else the first error of the message or "Unknown error". *)
Theorem result_decides (r : SubAgentRunner) (w : World) (before : list EngineEvent)
    (subtype : string) (errors : option (list string)) (usage : Json) :
  status r = pending ->
  existsb raising before = false ->
  (length (messages before) < MAX_MESSAGES)%nat ->
  let saved := existsb invokes_saveReport (messages before) in
  let after := run (before ++ [yields (result subtype errors usage)]) (r, w) in
  after.1 = Returned tt
  /\ status after.2.1
     = (if String.eqb subtype "success" && saved then completed else failed)
  /\ (String.eqb subtype "success" && saved = false ->
      error after.2.1
      = Some (if String.eqb subtype "success" then "Report not saved"
              else match errors with
                   | Some (first :: _) => first
                   | _ => "Unknown error"
                   end)).
Proof.
  intros Hpending Hquiet Hlen. cbn zeta.
  destruct (run_from_loop r w Hpending) as (llm & wc & Hfc & Hrun).
  specialize (Hrun (before ++ [yields (result subtype errors usage)])%list).
  destruct (for_await_prefix llm before fresh (querying r) wc Hquiet)
    as (l1 & r1 & w1 & Heq & Hc & Hs); [cbn; lia|].
  rewrite Heq in Hrun. cbn [for_await] in Hrun. unfold bind at 1 in Hrun.
  destruct (on_message_within llm (result subtype errors usage) l1 r1 w1)
    as (l2 & w2 & Hstep & Hf2 & _); [rewrite Hc; cbn; lia|].
  rewrite Hstep in Hrun. cbn [fst snd] in Hrun. unfold ret in Hrun.
  destruct Hrun as (w3 & -> & Hf3). cbn [fst snd].
  rewrite Hs. cbn [reportSaved fresh orb verdict].
  destruct (String.eqb subtype "success");
    [destruct (existsb invokes_saveReport (messages before))|];
    cbn; repeat split; intros; discriminate.
Qed.

Lemma for_await_idle (llm : string) (events : list EngineEvent) :
  forall (l : Locals) (r : SubAgentRunner) (w : World),
  forallb quiet events = true ->
  (messageCount l + length (messages events) <= MAX_MESSAGES)%nat ->
  existsb is_result (messages events) = false ->
  exists l' w', for_await llm events l (r, w) = (Returned l', (r, w')).
Proof.
  induction events as [|e events IH]; intros l r w Hquiet Hcount Hnone.
  - exists l, w. reflexivity.
  - cbn in Hquiet. apply andb_prop in Hquiet as [He Hquiet].
    destruct e as [m|e|content| |d]; try discriminate He; cbn in Hcount, Hnone;
      cbn [for_await].
    + apply orb_false_elim in Hnone as [Hm Hnone].
      destruct (on_message_within llm m l r w) as (l1 & w1 & Hstep & _ & Hc & _);
        [lia|].
      replace (verdict m (reportSaved l) (now w) r) with r in Hstep
        by (destruct m; try reflexivity; discriminate Hm).
      unfold bind at 1. rewrite Hstep. cbn [fst snd].
      apply IH; [assumption|lia|assumption].
    + unfold bind at 1. rewrite saveReport_effect. now apply IH.
    + unfold bind at 1. unfold in_world at 1, modify.
      cbn [fst snd world_of with_world object_has_world]. now apply IH.
Qed.

(** X14: a stream that ends inside the ceiling without any result
    message leaves the runner researching for good: [run()] returns with
    the status still researching, no completion time and no error. *)
Theorem stream_ends_without_result (r : SubAgentRunner) (w : World)
    (events : list EngineEvent) :
  status r = pending ->
  forallb quiet events = true ->
  (length (messages events) <= MAX_MESSAGES)%nat ->
  existsb is_result (messages events) = false ->
  let after := run events (r, w) in
  after.1 = Returned tt
  /\ status after.2.1 = researching
  /\ completedAt after.2.1 = completedAt r
  /\ error after.2.1 = error r
  /\ currentQuery after.2.1 = None.
Proof.
  intros Hpending Hquiet Hlen Hnone. cbn zeta.
  destruct (run_from_loop r w Hpending) as (llm & wc & Hfc & Hrun).
  specialize (Hrun events).
  destruct (for_await_idle llm events fresh (querying r) wc Hquiet)
    as (l1 & w1 & Hloop); [cbn; lia|assumption|].
  rewrite Hloop in Hrun. destruct Hrun as (w2 & -> & _). repeat split.
Qed.

(** X15: [SubAgentRunner.stop()] is idempotent: after one call the
    runner has no current query and is not researching, and a second call
    changes nothing; an interrupt request is sent only for a query that
    was in flight. *)
Theorem stop_twice (r : SubAgentRunner) (w : World) :
  let once := (SubAgent.stop (r, w)).2 in
  SubAgent.stop once = (Returned tt, once)
  /\ currentQuery once.1 = None
  /\ status once.1 <> researching
  /\ interrupts once.2
     = (interrupts w + if bool_decide (is_Some (currentQuery r)) then 1 else 0)%nat.
Proof.
  cbn zeta. rewrite stop_effect. cbn [fst snd].
  assert (Hquery : currentQuery (halted r) = None).
  { unfold halted. destruct (currentQuery r) eqn:Hq; cbn; case_bool_decide; cbn;
      try reflexivity; exact Hq. }
  assert (Hstatus : status (halted r) <> researching).
  { unfold halted. destruct (currentQuery r); cbn; case_bool_decide; cbn;
      try discriminate; assumption. }
  split; [|split; [exact Hquery|split; [exact Hstatus|]]].
  - rewrite stop_effect, Hquery. f_equal. f_equal.
    unfold halted at 1. rewrite Hquery.
    now rewrite bool_decide_eq_false_2 by exact Hstatus.
  - destruct (currentQuery r); cbn; lia.
Qed.

Lemma stream_failure_witness :
  let after := run ([yields system] ++ [raises "socket closed"; yields system])
                 (Sample.runner, Sample.empty_world) in
  after.1 = Thrown "socket closed"
  /\ status after.2.1 = failed
  /\ error after.2.1 = Some "socket closed"
  /\ currentQuery after.2.1 = None.
Proof.
  apply (stream_failure Sample.runner Sample.empty_world [yields system]
           [yields system] "socket closed").
  - reflexivity.
  - reflexivity.
  - cbn. unfold MAX_MESSAGES. lia.
Defined.

Lemma result_decides_witness :
  let after := run ([yields system] ++ [yields (result "success" None ∅)])
                 (Sample.runner, Sample.empty_world) in
  after.1 = Returned tt
  /\ status after.2.1 = failed
  /\ error after.2.1 = Some "Report not saved".
Proof.
  destruct (result_decides Sample.runner Sample.empty_world [yields system]
              "success" None ∅) as (Hret & Hstatus & Herror).
  - reflexivity.
  - reflexivity.
  - cbn. unfold MAX_MESSAGES. lia.
  - cbn zeta. split; [exact Hret|]. split; [exact Hstatus|].
    apply Herror. reflexivity.
Defined.

Lemma stream_ends_without_result_witness :
  let after := run [yields system; calls_saveReport "X"]
                 (Sample.runner, Sample.empty_world) in
  after.1 = Returned tt
  /\ status after.2.1 = researching
  /\ completedAt after.2.1 = None
  /\ error after.2.1 = None
  /\ currentQuery after.2.1 = None.
Proof.
  apply (stream_ends_without_result Sample.runner Sample.empty_world
           [yields system; calls_saveReport "X"]).
  - reflexivity.
  - reflexivity.
  - cbn. unfold MAX_MESSAGES. lia.
  - reflexivity.
Defined.

End RunnerEffects.

(** ** The calls of the agent *)

Section AgentCalls.
Import Database Tracing Fs Memory Agent Observe.

Lemma keeps_bind {A B} (n : nat) (t : Task) (m : AgentM A) (k : A -> AgentM B) :
  keeps n t m -> (forall x, keeps n t (k x)) -> keeps n t (bind m k).
Proof.
  intros Hm Hk a w Ha. specialize (Hm a w Ha). unfold bind.
  destruct (m (a, w)) as [[x|e] [a1 w1]]; [|exact Hm].
  apply Hk. exact Hm.
Qed.

Lemma keeps_try_catch {A} (n : nat) (t : Task) (m : AgentM A) (h : string -> AgentM A) :
  keeps n t m -> (forall e, keeps n t (h e)) -> keeps n t (try_catch m h).
Proof.
  intros Hm Hh a w Ha. specialize (Hm a w Ha). unfold try_catch.
  destruct (m (a, w)) as [[x|e] [a1 w1]]; [exact Hm|].
  apply Hh. exact Hm.
Qed.

Lemma keeps_ret {A} (n : nat) (t : Task) (x : A) : keeps n t (ret x).
Proof. intros a w Ha. exact Ha. Qed.

Lemma keeps_throw {A} (n : nat) (t : Task) (e : string) : keeps n t (throw e : AgentM A).
Proof. intros a w Ha. exact Ha. Qed.

Lemma keeps_this (n : nat) (t : Task) : keeps n t this.
Proof. intros a w Ha. exact Ha. Qed.

Lemma keeps_in_world {A} (n : nat) (t : Task) (m : M A) : keeps n t (in_world m).
Proof.
  intros a w Ha. unfold in_world. cbn [world_of object_has_world snd].
  destruct (m w) as [x w']. exact Ha.
Qed.

Lemma keeps_update (n : nat) (t : Task) (f : Agent -> Agent) :
  (forall a, tasks a !! n = Some t -> tasks (f a) !! n = Some t) ->
  keeps n t (update f).
Proof. intros Hf a w Ha. apply Hf. exact Ha. Qed.

Lemma keeps_reach (n m : nat) (t t' : Task) : m <> n -> keeps n t (reach m t').
Proof.
  intros Hne. apply keeps_update. intros a Ha. cbn.
  rewrite list_lookup_insert_ne by exact Hne. exact Ha.
Qed.

Lemma keeps_spawn {A} (n : nat) (t t0 : Task) (k : nat -> AgentM A) :
  (forall m, m <> n -> keeps n t (k m)) -> keeps n t (bind (spawn t0) k).
Proof.
  intros Hk a w Ha. unfold bind, spawn, this, update, modify, ret. cbn [fst snd].
  pose proof (lookup_lt_Some _ _ _ Ha) as Hlt.
  apply Hk; cbn [fst snd tasks set_tasks].
  - lia.
  - rewrite lookup_app_l by exact Hlt. exact Ha.
Qed.

Lemma tasks_wake (n m : nat) (t : Task) (a : Agent) :
  passive t = true -> tasks a !! n = Some t -> tasks (wake m a) !! n = Some t.
Proof.
  intros Hp Ha. unfold wake.
  destruct (decide (m = n)) as [->|Hne].
  - rewrite Ha. destruct t as [[]| | |]; try discriminate Hp; exact Ha.
  - destruct (tasks a !! m) as [[[]| | |]|]; try exact Ha;
      cbn; rewrite list_lookup_insert_ne by exact Hne; exact Ha.
Qed.

Lemma tasks_clearTimeout (n m : nat) (t : Task) (a : Agent) :
  passive t = true -> tasks a !! n = Some t -> tasks (clearTimeout m a) !! n = Some t.
Proof.
  intros Hp Ha. unfold clearTimeout.
  destruct (decide (m = n)) as [->|Hne].
  - rewrite Ha. destruct t as [[| | | | | | | |[]| | | | |]| | |];
      try discriminate Hp; exact Ha.
  - destruct (tasks a !! m) as [[[| | | | | | | |[]| | | | |]| | |]|]; try exact Ha;
      cbn; rewrite list_lookup_insert_ne by exact Hne; exact Ha.
Qed.

Lemma keeps_stop_subAgents (n : nat) (t : Task) : keeps n t stop_subAgents.
Proof. intros a w Ha. exact Ha. Qed.

Ltac keeps_step :=
  lazymatch goal with
  | |- keeps _ _ (bind (spawn _) _) => apply keeps_spawn; intros ? ?
  | |- keeps _ _ (bind _ _) => apply keeps_bind; [|intros ?]
  | |- keeps _ _ (try_catch _ _) => apply keeps_try_catch; [|intros ?]
  | |- keeps _ _ this => apply keeps_this
  | |- keeps _ _ (ret _) => apply keeps_ret
  | |- keeps _ _ (throw _) => apply keeps_throw
  | |- keeps _ _ (in_world _) => apply keeps_in_world
  | |- keeps _ _ interrupt => apply keeps_in_world
  | |- keeps _ _ stop_subAgents => apply keeps_stop_subAgents
  | |- keeps _ _ (update (wake _)) =>
      apply keeps_update; intros ? ?; apply tasks_wake; assumption
  | |- keeps _ _ (update (clearTimeout _)) =>
      apply keeps_update; intros ? ?; apply tasks_clearTimeout; assumption
  | |- keeps _ _ (reach _ _) => apply keeps_reach; assumption
  | |- keeps _ _ (update _) => apply keeps_update; intros ? ?; assumption
  | |- keeps _ _ (match ?x with _ => _ end) => destruct x
  end.

Ltac keeps_steps := repeat keeps_step.

Section OneTask.
Context (n : nat) (t : Task) (Hpassive : passive t = true).

Lemma keeps_enter (m : nat) : m <> n -> keeps n t (enter m).
Proof. intros Hne. unfold enter. keeps_steps. Qed.

Lemma keeps_on_message (m : nat) (message : SDKMessage) (sleepRequested : bool) :
  m <> n -> keeps n t (on_message m message sleepRequested).
Proof. intros Hne. unfold on_message, interrupt_or_fail. keeps_steps. Qed.

Lemma keeps_after_stream (m : nat) (sleepRequested : bool) :
  m <> n -> keeps n t (after_stream m sleepRequested).
Proof. intros Hne. unfold after_stream. keeps_steps. Qed.

Lemma keeps_loop_resumed (m : nat) (point : LoopPoint) (input : LoopInput) :
  m <> n -> keeps n t (loop_resumed m point input).
Proof.
  intros Hne. unfold loop_resumed. keeps_steps;
    first [now apply keeps_enter | now apply keeps_on_message
          | now apply keeps_after_stream].
Qed.

Lemma keeps_launch : keeps n t launch.
Proof. unfold launch. keeps_steps. now apply keeps_enter. Qed.

Lemma keeps_start_resumed (m : nat) (point : StartPoint) :
  m <> n -> keeps n t (start_resumed m point).
Proof.
  intros Hne. unfold start_resumed, start_memory. keeps_steps; apply keeps_launch.
Qed.

Lemma keeps_pause_rest (m : nat) : m <> n -> keeps n t (pause_rest m).
Proof. intros Hne. unfold pause_rest. keeps_steps. Qed.

Lemma keeps_stop_rest (m : nat) : m <> n -> keeps n t (stop_rest m).
Proof. intros Hne. unfold stop_rest, stop_trace, stop_end. keeps_steps. Qed.

Lemma keeps_stop_children (m : nat) : m <> n -> keeps n t (stop_children m).
Proof. intros Hne. unfold stop_children. keeps_steps; now apply keeps_stop_rest. Qed.

Lemma keeps_stop_resumed (m : nat) (point : StopPoint) :
  m <> n -> keeps n t (stop_resumed m point).
Proof.
  intros Hne. unfold stop_resumed, stop_trace, stop_end. keeps_steps;
    first [now apply keeps_stop_children | now apply keeps_stop_rest].
Qed.

Lemma keeps_calls :
  keeps n t start /\ keeps n t pause /\ keeps n t resume /\ keeps n t stop
  /\ (forall d, keeps n t (handleSleep d))
  /\ (forall m, m <> n -> keeps n t (timer_fired m)).
Proof.
  split; [|split; [|split; [|split; [|split]]]].
  - unfold start. keeps_steps.
  - unfold pause. keeps_steps. now apply keeps_pause_rest.
  - unfold resume. keeps_steps.
  - unfold stop. keeps_steps. now apply keeps_stop_children.
  - intros d. unfold handleSleep. keeps_steps.
  - intros m Hne. unfold timer_fired. keeps_steps.
Qed.

End OneTask.

(** A loop whose sleep timer was cleared stays where it is, whatever
    happens. *)
Lemma cleared_sleep_step (n : nat) (e : Event) (a : Agent) (w : World) :
  tasks a !! n = Some (loop_at (awaiting_sleep cleared)) ->
  tasks (after e (a, w)).1 !! n = Some (loop_at (awaiting_sleep cleared)).
Proof.
  intros Ha.
  destruct (keeps_calls n (loop_at (awaiting_sleep cleared)) eq_refl)
    as (Hstart & Hpause & Hresume & Hstop & Hsleep & Htimer).
  unfold after. destruct e as [| | | |d|m input|m|d]; cbn [happens].
  - now apply Hstart.
  - now apply Hpause.
  - now apply Hresume.
  - now apply Hstop.
  - now apply Hsleep.
  - rewrite task_resumed_at. destruct (decide (m = n)) as [->|Hne].
    + rewrite Ha. exact Ha.
    + destruct (tasks a !! m) as [[point|point|point|point]|]; [| | | |exact Ha].
      * now apply keeps_loop_resumed.
      * now apply keeps_start_resumed.
      * now apply keeps_stop_resumed.
      * unfold pause_resumed. destruct point; [|exact Ha].
        now apply keeps_pause_rest.
  - destruct (decide (m = n)) as [->|Hne]; [|now apply Htimer].
    unfold timer_fired, bind, this. cbn [fst snd]. rewrite Ha. exact Ha.
  - exact Ha.
Qed.

(** A [stop()] that awaits such a loop stays where it is as well. *)
Lemma awaiting_cleared_step (n k : nat) (e : Event) (a : Agent) (w : World) :
  tasks a !! n = Some (loop_at (awaiting_sleep cleared)) ->
  tasks a !! k = Some (stop_at (awaiting_loop n)) ->
  tasks (after e (a, w)).1 !! k = Some (stop_at (awaiting_loop n)).
Proof.
  intros Hn Ha.
  destruct (keeps_calls k (stop_at (awaiting_loop n)) eq_refl)
    as (Hstart & Hpause & Hresume & Hstop & Hsleep & Htimer).
  unfold after. destruct e as [| | | |d|m input|m|d]; cbn [happens].
  - now apply Hstart.
  - now apply Hpause.
  - now apply Hresume.
  - now apply Hstop.
  - now apply Hsleep.
  - rewrite task_resumed_at. destruct (decide (m = k)) as [->|Hne].
    + rewrite Ha. unfold stop_resumed, bind, this. cbn [fst snd]. rewrite Hn. exact Ha.
    + destruct (tasks a !! m) as [[point|point|point|point]|]; [| | | |exact Ha].
      * now apply keeps_loop_resumed.
      * now apply keeps_start_resumed.
      * now apply keeps_stop_resumed.
      * unfold pause_resumed. destruct point; [|exact Ha].
        now apply keeps_pause_rest.
  - destruct (decide (m = k)) as [->|Hne]; [|now apply Htimer].
    unfold timer_fired, bind, this. cbn [fst snd]. rewrite Ha. exact Ha.
  - exact Ha.
Qed.

(** X20: once the timer of a sleeping cycle loop has been cleared (by
    [pause()] or by [stop()]), the promise that loop awaits is never
    resolved: whatever calls, steps and timer events follow, the loop is
    still at the same [await], and so is every [stop()] that awaits the
    promise of that loop. *)
Theorem cleared_sleep_never_ends (events : list Event) (s : Agent * World) (n : nat) :
  tasks s.1 !! n = Some (loop_at (awaiting_sleep cleared)) ->
  tasks (after_all events s).1 !! n = Some (loop_at (awaiting_sleep cleared))
  /\ forall k, tasks s.1 !! k = Some (stop_at (awaiting_loop n)) ->
       tasks (after_all events s).1 !! k = Some (stop_at (awaiting_loop n)).
Proof.
  revert s. induction events as [|e events IH]; intros [a w] Hn.
  - split; [exact Hn | auto].
  - cbn [after_all fold_left].
    pose proof (cleared_sleep_step n e a w Hn) as Hn'.
    destruct (after e (a, w)) as [a1 w1] eqn:Hstep.
    destruct (IH (a1, w1) Hn') as [Hloop Hstop].
    split; [exact Hloop|].
    intros k Hk. apply Hstop.
    pose proof (awaiting_cleared_step n k e a w Hn Hk) as Hk'.
    rewrite Hstep in Hk'. exact Hk'.
Qed.

Lemma cleared_sleep_never_ends_witness :
  let asleep :=
    after_all
      [call_start; task_resumes 0 turn; task_resumes 0 turn; task_resumes 0 turn;
       task_resumes 0 turn; task_resumes 1 turn; call_handleSleep 60;
       task_resumes 1 (delivers (result "success" None ∅)); task_resumes 1 turn;
       task_resumes 1 ends; task_resumes 1 turn]
      (Sample.agent, Sample.empty_world) in
  let stopping := after_all [call_stop; task_resumes 2 turn] asleep in
  let later :=
    after_all [timer_fires 1; task_resumes 1 turn; task_resumes 2 turn; call_stop;
               task_resumes 1 ends; task_resumes 2 turn] stopping in
  status asleep.1 = sleeping
  /\ tasks later.1 !! 1%nat = Some (loop_at (awaiting_sleep cleared))
  /\ tasks later.1 !! 2%nat = Some (stop_at (awaiting_loop 1)).
Proof.
  cbn zeta. split; [vm_compute; reflexivity|].
  match goal with |- context [after_all ?events ?s] =>
    lazymatch events with
    | timer_fires _ :: _ =>
        destruct (cleared_sleep_never_ends events s 1) as [Hloop Hstop]
    end
  end.
  - vm_compute. reflexivity.
  - split; [exact Hloop|]. apply Hstop. vm_compute. reflexivity.
Defined.


(** X17: [pause()] throws on a stopped agent and does nothing on a paused
    one, leaving both as they are; otherwise it returns with [isPaused]
    set and the status paused, has asked the current query, if there is
    one, to interrupt, and when there is none it has already dropped the
    sleep timer and the deadline. *)
Theorem pause_cases (a : Agent) (w : World) :
  (status a = stopped ->
   pause (a, w) = (Thrown ("Agent " +:+ id a +:+ " is not running"), (a, w)))
  /\ (status a <> stopped -> isPaused a = true -> pause (a, w) = (Returned tt, (a, w)))
  /\ (status a <> stopped -> isPaused a = false ->
      exists a' w',
        pause (a, w) = (Returned tt, (a', w'))
        /\ status a' = paused
        /\ isPaused a' = true
        /\ shouldStop a' = shouldStop a
        /\ interrupts w'
           = (interrupts w + if bool_decide (is_Some (currentQuery a)) then 1 else 0)%nat
        /\ (currentQuery a = None -> is_Some (sleepTimeout a) ->
            sleepTimeout a' = None /\ sleepUntil a' = None)).
Proof.
  split; [|split].
  - intros Hst. unfold pause, bind, this. cbn [fst snd].
    rewrite bool_decide_eq_true_2 by exact Hst. reflexivity.
  - intros Hst Hp. unfold pause, bind, this. cbn [fst snd].
    rewrite bool_decide_eq_false_2 by exact Hst. rewrite Hp. reflexivity.
  - intros Hst Hp. unfold pause, bind, this. cbn [fst snd].
    rewrite bool_decide_eq_false_2 by exact Hst. rewrite Hp.
    unfold update, modify, spawn, ret, interrupt, in_world, bind, this.
    cbn [fst snd world_of with_world object_has_world].
    destruct (currentQuery a) as [q|] eqn:Hq.
    + eexists _, _. split; [reflexivity|]. cbn.
      do 3 (split; [reflexivity|]). split; [lia|].
      intros Hnone. discriminate Hnone.
    + unfold pause_rest, reach, bind, this, update, modify, ret.
      cbn [fst snd sleepTimeout set_tasks set_status set_isPaused].
      destruct (sleepTimeout a) as [timer|] eqn:Htimer; cbn [fst snd].
      * eexists _, _. split; [reflexivity|].
        cbn [status isPaused shouldStop sleepTimeout sleepUntil set_tasks
             set_sleepUntil set_sleepTimeout interrupts].
        assert (Hsame : forall x,
                  status (clearTimeout timer x) = status x
                  /\ isPaused (clearTimeout timer x) = isPaused x
                  /\ shouldStop (clearTimeout timer x) = shouldStop x).
        { intros x. unfold clearTimeout.
          destruct (tasks x !! timer) as [[[| | | | | | | |[]| | | | |]| | |]|];
            repeat split. }
        match goal with |- context [clearTimeout timer ?x] =>
          destruct (Hsame x) as (-> & -> & ->) end.
        cbn. do 3 (split; [reflexivity|]). split; [lia|]. auto.
      * eexists _, _. split; [reflexivity|]. cbn.
        do 3 (split; [reflexivity|]). split; [lia|].
        intros _ [timer Htimer']. discriminate Htimer'.
Qed.




(** X21: [readMemory] and [writeMemory] never throw: a read error is
    answered by the empty string and a write error is swallowed; reading
    changes nothing. *)
Theorem memory_helpers_never_throw (w : World) (P M agentId instructions : string)
    (createdAt : Date) :
  (exists text, readMemory P agentId instructions createdAt w = (Returned text, w))
  /\ (exists w', writeMemory P M agentId w = (Returned tt, w')).
Proof.
  split.
  - unfold readMemory, try_catch, bind, existsSync, readFile, ret.
    case_bool_decide as Hfile.
    + destruct Hfile as [text Hfile]. rewrite Hfile. eauto.
    + eauto.
  - unfold writeMemory, try_catch, writeFile, ret.
    destruct (refusal w P); eauto.
Qed.

End AgentCalls.
